(** * Template editing plugin (src/templateediting.js)

    A shallow embedding of the [TemplateEditing] plugin: the descriptor
    registry built by [init] / [_registerElement], the look-ups
    [getElementInfo] / [getElementsByType], and the upcast / downcast
    handlers that [init] hands to the conversion pipeline.

    The plugin object is mutated in place by the JavaScript source; here its
    fields are threaded explicitly through a [Plugin] record.  The host
    engine's schema is kept as the log of the calls made on it. *)

From Stdlib Require Import List String Ascii Bool Arith Lia.
Import ListNotations.
Open Scope string_scope.

#[local] Set Warnings "-register-all".

(** ** JavaScript objects used as string-keyed maps *)

Module JSObject.

(** Own enumerable properties, in the order [Object.keys] / [Object.values]
    enumerate them.  Assignment is modelled as it behaves for keys that are
    neither array indices (which are enumerated first) nor [__proto__]: the
    keys of [_elements] all begin with [tpl__] (see [registrations_prefixed]);
    [_typeMap], whose keys are the declared types, is written with [put] and
    never enumerated. *)
Definition t (A : Type) : Type := list (string * A).

Definition empty {A : Type} : t A := [].

(** [o[k] = v], for a key other than [__proto__]: an existing own property
    keeps its place and takes the new value, a new one is appended. *)
Fixpoint set {A : Type} (k : string) (v : A) (o : t A) : t A :=
  match o with
  | [] => [(k, v)]
  | (k', v') :: rest =>
      if String.eqb k' k then (k, v) :: rest else (k', v') :: set k v rest
  end.

(** [o[k] = v] for a string [v]: [__proto__] names the accessor of the
    prototype, which leaves the object as it was when given a primitive; no
    property is created. *)
Definition put (k : string) (v : string) (o : t string) : t string :=
  if String.eqb k "__proto__" then o else set k v o.

Fixpoint getOwn {A : Type} (k : string) (o : t A) : option A :=
  match o with
  | [] => None
  | (k', v) :: rest => if String.eqb k' k then Some v else getOwn k rest
  end.

Definition keys {A : Type} (o : t A) : list string := map fst o.
Definition values {A : Type} (o : t A) : list A := map snd o.

(** The result of the property read [o[k]] on an object created by the
    literal [{}]: an own property, a property inherited from
    [Object.prototype], or [undefined]. *)
Inductive property (A : Type) : Type :=
| Undefined : property A
| Own : A -> property A
| Inherited : string -> property A.
Arguments Undefined {A}.
Arguments Own {A} _.
Arguments Inherited {A} _.

(** The property names of [Object.prototype] (ECMAScript, B.2.2 included). *)
Definition ObjectPrototype : list string :=
  [ "constructor"; "hasOwnProperty"; "isPrototypeOf"; "propertyIsEnumerable";
    "toLocaleString"; "toString"; "valueOf"; "__proto__";
    "__defineGetter__"; "__defineSetter__"; "__lookupGetter__";
    "__lookupSetter__" ].

Definition get {A : Type} (k : string) (o : t A) : property A :=
  match getOwn k o with
  | Some v => Own v
  | None => if existsb (String.eqb k) ObjectPrototype then Inherited k else Undefined
  end.

(** [Array.prototype.includes] on an array of strings. *)
Definition includes (l : list string) (x : string) : bool :=
  existsb (String.eqb x) l.

(** [[ ...new Set( l ) ]]: first occurrences, in order. *)
Fixpoint unique (seen l : list string) : list string :=
  match l with
  | [] => []
  | x :: rest =>
      if includes seen x then unique seen rest else x :: unique (x :: seen) rest
  end.

(** [Array.prototype.pop] on a fresh array, as used for its return value. *)
Fixpoint pop {A : Type} (l : list A) : option A :=
  match l with
  | [] => None
  | [x] => Some x
  | _ :: rest => pop rest
  end.

End JSObject.

Import JSObject.

(** ** DOM nodes produced by the XML parser *)

Module Dom.

Inductive Node : Type :=
  mkNode (nodeType : nat) (tagName : string)
         (attributes : list (string * string)) (childNodes : list Node).

Definition nodeType (n : Node) : nat := let '(mkNode ty _ _ _) := n in ty.
Definition tagName (n : Node) : string := let '(mkNode _ tag _ _) := n in tag.
Definition attributes (n : Node) : list (string * string) :=
  let '(mkNode _ _ attrs _) := n in attrs.
Definition childNodes (n : Node) : list Node := let '(mkNode _ _ _ cs) := n in cs.

(** [node.nodeType === 1] *)
Definition isElement (n : Node) : bool := Nat.eqb (nodeType n) 1.

Definition setAttribute (n : Node) (k v : string) : Node :=
  let '(mkNode ty tag attrs cs) := n in mkNode ty tag (JSObject.set k v attrs) cs.

Definition getAttribute (n : Node) (k : string) : option string :=
  JSObject.getOwn k (attributes n).

End Dom.

(** ** Descriptors, view elements and model elements *)

Inductive ElementInfo : Type := mkElementInfo
  { name : string;
    tagName : string;
    type : string;
    attributes : list (string * string);
    parent : option ElementInfo }.

(** A view element as the conversion handlers see and build it.  [isWidget]
    records the widget property set by the widget utility [toWidget]. *)
Record ViewElement : Type := mkViewElement
  { viewName : string;
    viewAttributes : list (string * string);
    isWidget : bool }.

Inductive ModelElement : Type :=
  mkModelElement (modelName : string) (modelAttributes : list (string * string))
                 (modelChildren : list ModelElement).

Definition modelName (m : ModelElement) : string :=
  let '(mkModelElement n _ _) := m in n.
Definition modelAttributes (m : ModelElement) : list (string * string) :=
  let '(mkModelElement _ a _) := m in a.
Definition modelChildren (m : ModelElement) : list ModelElement :=
  let '(mkModelElement _ _ c) := m in c.

(** Host writers: [viewWriter.createContainerElement], [toWidget] and
    [modelWriter.createElement]. *)
Definition createContainerElement (tag : string) (attrs : list (string * string))
  : ViewElement :=
  {| viewName := tag; viewAttributes := attrs; isWidget := false |}.

(** [viewWriter.addClass]: the class joins those of the [class] attribute. *)
Definition addClass (className : string) (attrs : list (string * string))
  : list (string * string) :=
  match JSObject.getOwn "class" attrs with
  | Some classes => JSObject.set "class" (classes ++ " " ++ className) attrs
  | None => JSObject.set "class" className attrs
  end.

(** [toWidget( element, writer )]: the element is made non-editable, gets
    the class [ck-widget] and the widget property. *)
Definition toWidget (el : ViewElement) : ViewElement :=
  {| viewName := viewName el;
     viewAttributes :=
       JSObject.set "contenteditable" "false" (addClass "ck-widget" (viewAttributes el));
     isWidget := true |}.

Definition createElement (n : string) (attrs : list (string * string)) : ModelElement :=
  mkModelElement n attrs [].

(** Modelled from the spec: the helpers [getModelAttributes] and
    [getViewAttributes] of utils/conversion, which are not part of the
    sources at hand.  Attributes are copied from the node, "attribute names
    restricted to those the descriptor declares allowed". *)
Definition restrictTo (templateElement : ElementInfo) (attrs : list (string * string))
  : list (string * string) :=
  filter (fun kv => JSObject.includes (JSObject.keys (attributes templateElement)) (fst kv))
         attrs.

Definition getModelAttributes (templateElement : ElementInfo) (modelElement : ModelElement)
  : list (string * string) :=
  restrictTo templateElement (modelAttributes modelElement).

Definition getViewAttributes (templateElement : ElementInfo) (viewElement : ViewElement)
  : list (string * string) :=
  restrictTo templateElement (viewAttributes viewElement).

(** The specification's descriptor with its required children, in order. *)
Inductive Descriptor : Type :=
  mkDescriptor (info : ElementInfo) (children : list Descriptor).

Definition info (D : Descriptor) : ElementInfo := let '(mkDescriptor el _) := D in el.
Definition children (D : Descriptor) : list Descriptor :=
  let '(mkDescriptor _ cs) := D in cs.

(** ** The host schema, as the log of the calls made on it *)

Record SchemaDefinition : Type := mkSchemaDefinition
  { isObject : bool;
    isBlock : bool;
    allowIn : string;
    allowAttributes : list string }.

Inductive SchemaCall : Type :=
| Register (item : string) (definition : SchemaDefinition)
| Extend (item : string) (allowedIn : list string).

(** ** The plugin *)

Record TemplateConfig : Type := mkTemplateConfig
  { label : string;
    template : string }.

Record Plugin : Type := mkPlugin
  { _elements : JSObject.t ElementInfo;
    _typeMap : JSObject.t string;
    schema : list SchemaCall }.


(** The constructor: both maps start as [{}]. *)
Definition constructor : Plugin :=
  {| _elements := JSObject.empty; _typeMap := JSObject.empty; schema := [] |}.

(** What the source takes from outside this file. *)
Class Collaborators : Type := mkCollaborators
  { (** The browser's [DOMParser]: [parseFromString markup] stands for
        [new DOMParser().parseFromString( markup, 'text/xml' ).documentElement];
        malformed markup is reported in band, as a [parsererror] document. *)
    parseFromString : string -> Dom.Node;
    (** The method [ElementInfo.matches] of utils/elementinfo. *)
    matches : ElementInfo -> ViewElement -> bool;
    (** The two parts of the [ElementInfo] constructor the specification
        leaves open: the name component a nested element adds to its parent's
        name (it may use the node and its position among its siblings), and
        the type a template node declares, if any. *)
    descendantSuffix : ElementInfo -> nat -> Dom.Node -> string;
    declaredType : Dom.Node -> option string }.

Section TemplateEditing.

Context {collaborators : Collaborators}.

(** Modelled from the spec: the constructor [new ElementInfo( dom, parent )]
    of utils/elementinfo, which is not part of the sources at hand.  As in
    section 4.1, the root gets the name [tpl__] followed by the definition
    name, the definition name being the [ck-name] attribute that [init]
    sets on the document element, and each descendant gets a name derived
    from its ancestor chain; the tag and the attribute map are the node's;
    the type defaults to [element]; [parent] is the enclosing descriptor. *)
Definition newElementInfo (dom : Dom.Node) (index : nat) (parent : option ElementInfo)
  : ElementInfo :=
  {| name :=
       match parent with
       | None =>
           "tpl__" ++ match Dom.getAttribute dom "ck-name" with
                      | Some definitionName => definitionName
                      | None => EmptyString
                      end
       | Some p => name p ++ "__" ++ descendantSuffix p index dom
       end;
     tagName := Dom.tagName dom;
     type := match declaredType dom with Some ty => ty | None => "element" end;
     attributes := Dom.attributes dom;
     parent := parent |}.

(** *** Look-ups *)

Definition getElementInfo (this : Plugin) (n : string) : JSObject.property ElementInfo :=
  JSObject.get n (_elements this).

Definition getElementsByType (this : Plugin) (ty : string) : list ElementInfo :=
  filter (fun el => String.eqb (type el) ty) (JSObject.values (_elements this)).

Definition _elementTypes (this : Plugin) : list string :=
  JSObject.unique [] (map type (JSObject.values (_elements this))).

(** *** Registration *)

(** The body of [_registerElement] up to the recursion: the two map updates
    and the schema registration of the element itself, as they go when the
    host accepts the item; the host's refusal of an item that is registered
    already is in [registerItselfOrThrow]. *)
Definition registerItself (element : ElementInfo) (parent : option ElementInfo)
           (this : Plugin) : Plugin :=
  {| _elements := JSObject.set (name element) element (_elements this);
     _typeMap := JSObject.put (type element) (name element) (_typeMap this);
     schema := (schema this ++
       [ Register (name element)
           {| isObject := true;
              isBlock := true;
              allowIn := match parent with Some p => name p | None => "$root" end;
              allowAttributes := JSObject.keys (attributes element) |} ])%list |}.

(** The same for a descriptor that carries its parent. *)
Definition registerOne (this : Plugin) (element : ElementInfo) : Plugin :=
  registerItself element (parent element) this.

(** [_registerElement( dom, parent = null )].  The loop over the children is
    the source's [filter( node => node.nodeType === 1 ).map( ... )], written
    as one pass (see [_registerElement_children]); [index] is the node's
    position among its parent's child nodes. *)
Fixpoint _registerElement (dom : Dom.Node) (index : nat) (parent : option ElementInfo)
         (this : Plugin) : Plugin :=
  let element := newElementInfo dom index parent in
  match dom with
  | Dom.mkNode _ _ _ children =>
      (fix each (nodes : list Dom.Node) (i : nat) (this : Plugin) : Plugin :=
         match nodes with
         | [] => this
         | child :: rest =>
             each rest (S i)
                  (if Dom.isElement child
                   then _registerElement child i (Some element) this
                   else this)
         end) children 0 (registerItself element parent this)
  end.

(** *** Registration with the host's check

    [schema.register] of the host throws when the item is registered
    already.  The exception ends [_registerElement] and [init]; the
    assignments made before it stay in the plugin's fields.  The log holds
    the calls of this plugin. *)





(** One iteration of the [forEach] in [init]. *)
Definition registerTemplate (this : Plugin) (entry : string * TemplateConfig) : Plugin :=
  let dom := parseFromString (template (snd entry)) in
  let dom := Dom.setAttribute dom "ck-name" (fst entry) in
  _registerElement dom 0 None this.

(** [init()], on the configuration's entries in [Object.keys] order, as it
    goes when the host accepts every registration ([initOrThrow] has the
    host's check).  The registrations of the command and of the post-fixer
    do not touch the plugin's fields or the schema and are not represented. *)
Definition init (templates : list (string * TemplateConfig)) (this : Plugin) : Plugin :=
  let this := fold_left registerTemplate templates this in
  {| _elements := _elements this;
     _typeMap := _typeMap this;
     schema := (schema this ++
       [ Extend "$text" (map (fun key => ("ck__" ++ key)%string) (map fst templates)) ])%list |}.



(** *** Conversion

    [init] passes its handlers to the helpers [upcastTemplateElement] and
    [downcastTemplateElement] of utils/conversion; what is embedded here
    are the plugin's own methods of these names, which the source holds. *)

Definition _findMatchingTemplateElement (this : Plugin) (viewElement : ViewElement)
           (types : list string) : option ElementInfo :=
  JSObject.pop
    (filter (fun el => matches el viewElement && JSObject.includes types (type el))
            (JSObject.values (_elements this))).

(** [upcastTemplateElement( config )]: the [view] pattern lets the element
    through when a descriptor is found, and [model] then builds from the
    descriptor found by the same search. *)
Definition upcastTemplateElement (this : Plugin) (types : list string)
           (model : ElementInfo -> ViewElement -> ModelElement)
           (viewElement : ViewElement) : option ModelElement :=
  match _findMatchingTemplateElement this viewElement types with
  | Some _ =>
      option_map (fun templateElement => model templateElement viewElement)
                 (_findMatchingTemplateElement this viewElement types)
  | None => None
  end.

(** [downcastTemplateElement( config )].  An inherited property is a truthy
    function without a [type], which no type list includes. *)
Definition downcastTemplateElement (this : Plugin) (types : list string)
           (view : ElementInfo -> ModelElement -> ViewElement)
           (modelElement : ModelElement) : option ViewElement :=
  match JSObject.get (modelName modelElement) (_elements this) with
  | JSObject.Own templateElement =>
      if JSObject.includes types (type templateElement)
      then Some (view templateElement modelElement)
      else None
  | JSObject.Inherited _ => None
  | JSObject.Undefined => None
  end.

(** The three handlers of [init]. *)
Definition upcastModel (templateElement : ElementInfo) (viewElement : ViewElement)
  : ModelElement :=
  createElement (name templateElement) (getViewAttributes templateElement viewElement).

Definition dataDowncastView (templateElement : ElementInfo) (modelElement : ModelElement)
  : ViewElement :=
  createContainerElement (tagName templateElement)
                         (getModelAttributes templateElement modelElement).

Definition editingDowncastView (templateElement : ElementInfo) (modelElement : ModelElement)
  : ViewElement :=
  let el := createContainerElement (tagName templateElement)
                                   (getModelAttributes templateElement modelElement) in
  match parent templateElement with
  | Some _ => el
  | None => toWidget el
  end.

Definition upcast (this : Plugin) : ViewElement -> option ModelElement :=
  upcastTemplateElement this (_elementTypes this) upcastModel.

Definition dataDowncast (this : Plugin) : ModelElement -> option ViewElement :=
  downcastTemplateElement this (_elementTypes this) dataDowncastView.

Definition editingDowncast (this : Plugin) : ModelElement -> option ViewElement :=
  downcastTemplateElement this [ "element" ] editingDowncastView.

(** The round-trip property of section 8 for the descriptor [D]: a model
    element of type [D.name] with attribute values over the descriptor's
    attribute names comes back from the data view as it was. *)
Definition RoundTrip (this : Plugin) (D : ElementInfo) : Prop :=
  forall attrs : list (string * string),
    (forall kv, In kv attrs -> In (fst kv) (JSObject.keys (attributes D))) ->
    exists viewElement,
      dataDowncast this (createElement (name D) attrs) = Some viewElement
      /\ upcast this viewElement = Some (createElement (name D) attrs).

(** *** The registrations, as a list

    The nodes for which [_registerElement] constructs a descriptor, each
    with its descriptor, in the order of the calls. *)
Fixpoint constructions (dom : Dom.Node) (index : nat) (parent : option ElementInfo)
  : list (Dom.Node * ElementInfo) :=
  let element := newElementInfo dom index parent in
  match dom with
  | Dom.mkNode _ _ _ children =>
      (dom, element) ::
      (fix each (nodes : list Dom.Node) (i : nat) : list (Dom.Node * ElementInfo) :=
         match nodes with
         | [] => []
         | child :: rest =>
             ((if Dom.isElement child then constructions child i (Some element) else [])
                ++ each rest (S i))%list
         end) children 0
  end.

Definition templateDom (entry : string * TemplateConfig) : Dom.Node :=
  Dom.setAttribute (parseFromString (template (snd entry))) "ck-name" (fst entry).

(** All descriptors [init] constructs, in registration order. *)
Definition registrations (templates : list (string * TemplateConfig)) : list ElementInfo :=
  flat_map (fun entry => map snd (constructions (templateDom entry) 0 None)) templates.

(** The descriptor of a template node together with its required children:
    the descriptors constructed with it as their parent. *)
Fixpoint descriptorTree (dom : Dom.Node) (index : nat) (parent : option ElementInfo)
  : Descriptor :=
  let element := newElementInfo dom index parent in
  match dom with
  | Dom.mkNode _ _ _ children =>
      mkDescriptor element
        ((fix each (nodes : list Dom.Node) (i : nat) : list Descriptor :=
            match nodes with
            | [] => []
            | child :: rest =>
                if Dom.isElement child
                then descriptorTree child i (Some element) :: each rest (S i)
                else each rest (S i)
            end) children 0)
  end.

(** The descriptors of a tree, parents first, and the registry of all
    descriptors by name, filled in registration order. *)
Fixpoint flatten (D : Descriptor) : list Descriptor :=
  match D with
  | mkDescriptor _ cs =>
      D :: (fix each (ds : list Descriptor) : list Descriptor :=
              match ds with
              | [] => []
              | Dc :: rest => (flatten Dc ++ each rest)%list
              end) cs
  end.

Definition descriptorRegistry (templates : list (string * TemplateConfig))
  : JSObject.t Descriptor :=
  fold_left (fun registry D => JSObject.set (name (info D)) D registry)
            (flat_map (fun entry => flatten (descriptorTree (templateDom entry) 0 None))
                      templates)
            JSObject.empty.

End TemplateEditing.

(** Every descriptor of [els] that has a parent finds it among the
    descriptors [seen] before the list or earlier in the list. *)
Definition parentsBefore (seen els : list ElementInfo) : Prop :=
  forall n el p,
    nth_error els n = Some el ->
    parent el = Some p ->
    In p seen \/ exists m, m < n /\ nth_error els m = Some p.

(** ** The integrity post-fixer *)

Module Integrity.

(** Modelled from the spec: [postfixTemplateElement] and
    [prepareTemplateElementPostfixer] of utils/integrity, which are not part
    of the sources at hand.  This is the repair pass of section 4.3: the
    mutable model tree is passed explicitly, so [repair] returns the changed
    nodes as they are after the pass together with the set of nodes it
    touched. *)
Definition Registry : Type := JSObject.t Descriptor.

Definition lookupByName (registry : Registry) (n : string) : option Descriptor :=
  JSObject.getOwn n registry.

(** A required child whose descriptor is gone from the registry is skipped. *)
Definition registered (registry : Registry) (D : Descriptor) : bool :=
  match lookupByName registry (name (info D)) with
  | Some _ => true
  | None => false
  end.

(** The fresh nodes for a list of required children, skipping those whose
    descriptor is gone. *)
Fixpoint freshChildren (registry : Registry) (fresh : Descriptor -> ModelElement)
         (ds : list Descriptor) : list ModelElement :=
  match ds with
  | [] => []
  | Dc :: rest =>
      if registered registry Dc
      then fresh Dc :: freshChildren registry fresh rest
      else freshChildren registry fresh rest
  end.

(** A freshly constructed node of the descriptor's type, with its own
    required descendants. *)
Fixpoint materialize (registry : Registry) (D : Descriptor) : ModelElement :=
  match D with
  | mkDescriptor el required =>
      mkModelElement (name el) [] (freshChildren registry (materialize registry) required)
  end.

(** The outcome of walking the required children of one node: its new
    children, the nodes touched below it, and whether its own child list
    was changed. *)
Record Walk : Type := mkWalk
  { nodes : list ModelElement;
    touchedBelow : list ModelElement;
    modified : bool }.

(** The required children [ds] walked in order against the children
    [actual]: a child of the required type at the current position is kept
    and repaired in turn (steps 1 and 4), a missing one is inserted fresh
    (step 2); what remains past the last required child is extra and is
    dropped. *)
Fixpoint walk (registry : Registry)
         (repairChild : Descriptor -> ModelElement -> ModelElement * list ModelElement)
         (ds : list Descriptor) (actual : list ModelElement) : Walk :=
  match ds with
  | [] =>
      {| nodes := [];
         touchedBelow := [];
         modified := match actual with [] => false | _ :: _ => true end |}
  | Dc :: rest =>
      if negb (registered registry Dc) then walk registry repairChild rest actual
      else
        match actual with
        | c :: actual' =>
            if String.eqb (modelName c) (name (info Dc))
            then
              let r := repairChild Dc c in
              let w := walk registry repairChild rest actual' in
              {| nodes := fst r :: nodes w;
                 touchedBelow := (snd r ++ touchedBelow w)%list;
                 modified := modified w |}
            else
              let w := walk registry repairChild rest actual in
              {| nodes := materialize registry Dc :: nodes w;
                 touchedBelow := touchedBelow w;
                 modified := true |}
        | [] =>
            let w := walk registry repairChild rest [] in
            {| nodes := materialize registry Dc :: nodes w;
               touchedBelow := touchedBelow w;
               modified := true |}
        end
  end.

(** Steps 1 to 4 for a node of descriptor [D].  Children of a foreign type
    are removed first (step 3), the required children are then walked
    against the remaining ones, so that the node ends with exactly one child
    per required descriptor, in descriptor order.  The node is touched when
    its child list was changed. *)
Fixpoint repairElement (registry : Registry) (D : Descriptor) (node : ModelElement)
  : ModelElement * list ModelElement :=
  match D with
  | mkDescriptor _ required =>
      match required with
      | [] => (node, [])
      | _ :: _ =>
          let kept :=
            filter (fun c => JSObject.includes (map (fun Dc => name (info Dc)) required)
                                               (modelName c))
                   (modelChildren node) in
          let removed :=
            negb (Nat.eqb (List.length kept) (List.length (modelChildren node))) in
          let w := walk registry (repairElement registry) required kept in
          let node' := mkModelElement (modelName node) (modelAttributes node) (nodes w) in
          (node', if removed || modified w then node' :: touchedBelow w else touchedBelow w)
      end
  end.

(** One changed node: repaired when its name resolves to a descriptor. *)
Definition postfix (registry : Registry) (node : ModelElement)
  : ModelElement * list ModelElement :=
  match lookupByName registry (modelName node) with
  | Some D => repairElement registry D node
  | None => (node, [])
  end.

(** [repair( changedNodes )]: the changed nodes after the pass, and the
    touched set. *)
Definition repair (registry : Registry) (changed : list ModelElement)
  : list ModelElement * list ModelElement :=
  (map (fun node => fst (postfix registry node)) changed,
   flat_map (fun node => snd (postfix registry node)) changed).

(** The invariant of section 3: a node of descriptor [D] holds exactly one
    valid node per required child, in descriptor order. *)
Fixpoint inOrder (registry : Registry) (valid : Descriptor -> ModelElement -> bool)
         (ds : list Descriptor) (actual : list ModelElement) : bool :=
  match ds with
  | [] => match actual with [] => true | _ :: _ => false end
  | Dc :: rest =>
      if negb (registered registry Dc) then inOrder registry valid rest actual
      else
        match actual with
        | c :: actual' =>
            String.eqb (modelName c) (name (info Dc))
            && valid Dc c
            && inOrder registry valid rest actual'
        | [] => false
        end
  end.

Fixpoint consistent (registry : Registry) (D : Descriptor) (node : ModelElement) : bool :=
  match D with
  | mkDescriptor _ required =>
      match required with
      | [] => true
      | _ :: _ => inOrder registry (consistent registry) required (modelChildren node)
      end
  end.

Definition consistentNode (registry : Registry) (node : ModelElement) : bool :=
  match lookupByName registry (modelName node) with
  | Some D => consistent registry D node
  | None => true
  end.

End Integrity.

(** ** A concrete configuration

    The two templates of the plugin's documentation, with stand-ins for the
    parts taken from outside: the parser's results on the markup strings used
    below, a naming of nested elements by position, types declared by a
    [ck-type] attribute, and a matcher. *)

Module Example.

Definition text : Dom.Node := Dom.mkNode 3 "#text" [] [].
Definition comment : Dom.Node := Dom.mkNode 8 "#comment" [] [].

Definition simpleMarkup : string := "<div class='simple'></div>".
Definition complexMarkup : string :=
  "<div class='parent'><div class='child'></div></div>".
Definition spacedMarkup : string :=
  "<div class='parent'> <!-- note --> <div class='child'></div> </div>".
Definition typedMarkup : string := "<span ck-type='placeholder'></span>".

(** What the parser answers for malformed XML. *)
Definition parsererror : Dom.Node :=
  Dom.mkNode 1 "parsererror"
    [ ("xmlns", "http://www.mozilla.org/newlayout/xml/parsererror.xml") ]
    [ text; Dom.mkNode 1 "sourcetext" [] [ text ] ].

Definition parseFromString (markup : string) : Dom.Node :=
  if String.eqb markup simpleMarkup then
    Dom.mkNode 1 "div" [ ("class", "simple") ] []
  else if String.eqb markup complexMarkup then
    Dom.mkNode 1 "div" [ ("class", "parent") ]
      [ Dom.mkNode 1 "div" [ ("class", "child") ] [] ]
  else if String.eqb markup spacedMarkup then
    Dom.mkNode 1 "div" [ ("class", "parent") ]
      [ text; comment; text; Dom.mkNode 1 "div" [ ("class", "child") ] []; text ]
  else if String.eqb markup typedMarkup then
    Dom.mkNode 1 "span" [ ("ck-type", "placeholder") ] []
  else parsererror.

Definition descendantSuffix (p : ElementInfo) (index : nat) (dom : Dom.Node) : string :=
  "child" ++ String (ascii_of_nat (48 + index)) EmptyString.

Definition declaredType (dom : Dom.Node) : option string :=
  Dom.getAttribute dom "ck-type".

(** Modelled from the spec: a matcher in the sense of section 4.2, which
    "compares tag name and presence/values of attributes the descriptor
    declares as significant", with the [class] attribute as the significant
    one. *)
Definition matches (el : ElementInfo) (viewElement : ViewElement) : bool :=
  String.eqb (viewName viewElement) (tagName el)
  && match JSObject.getOwn "class" (attributes el) with
     | Some c =>
         match JSObject.getOwn "class" (viewAttributes viewElement) with
         | Some c' => String.eqb c c'
         | None => false
         end
     | None => true
     end.

Definition config (n markup : string) : string * TemplateConfig :=
  (n, {| label := n; template := markup |}).

Definition collaborators : Collaborators :=
  mkCollaborators parseFromString matches descendantSuffix declaredType.

Definition plugin (templates : list (string * TemplateConfig)) : Plugin :=
  @init collaborators templates constructor.

End Example.

(** * Properties *)

(** ** Objects and arrays *)

Section ObjectFacts.

Context {A : Type}.

Lemma getOwn_set (k k' : string) (v : A) (o : JSObject.t A) :
  JSObject.getOwn k' (JSObject.set k v o)
  = if String.eqb k k' then Some v else JSObject.getOwn k' o.
Proof.
  induction o as [| [k0 v0] o IH]; simpl.
  - reflexivity.
  - destruct (String.eqb_spec k0 k) as [-> | Hne]; simpl.
    + destruct (String.eqb k k'); reflexivity.
    + rewrite IH.
      destruct (String.eqb_spec k0 k') as [-> | Hne'].
      * destruct (String.eqb_spec k k'); congruence.
      * reflexivity.
Qed.

Lemma set_fresh (k : string) (v : A) (o : JSObject.t A) :
  ~ In k (JSObject.keys o) -> JSObject.set k v o = (o ++ [(k, v)])%list.
Proof.
  induction o as [| [k0 v0] o IH]; simpl; intros Hk.
  - reflexivity.
  - destruct (String.eqb_spec k0 k) as [-> | Hne].
    + exfalso. apply Hk. now left.
    + rewrite IH; [reflexivity | tauto].
Qed.

Lemma keys_set (k : string) (v : A) (o : JSObject.t A) :
  forall k', In k' (JSObject.keys (JSObject.set k v o)) <-> k' = k \/ In k' (JSObject.keys o).
Proof.
  induction o as [| [k0 v0] o IH]; simpl; intros k'.
  - intuition congruence.
  - destruct (String.eqb_spec k0 k) as [-> | Hne]; simpl.
    + intuition congruence.
    + rewrite IH. tauto.
Qed.

(** Assigning to a name that is present leaves the order of enumeration as
    it was. *)
Lemma keys_set_present (k : string) (v : A) (o : JSObject.t A) :
  In k (JSObject.keys o) -> JSObject.keys (JSObject.set k v o) = JSObject.keys o.
Proof.
  induction o as [| [k0 v0] o IH]; simpl; intros Hk; [destruct Hk |].
  destruct (String.eqb_spec k0 k) as [-> | Hne]; simpl; [reflexivity |].
  f_equal. apply IH. destruct Hk; [contradiction | assumption].
Qed.

Lemma getOwn_values (k : string) (v : A) (o : JSObject.t A) :
  JSObject.getOwn k o = Some v -> In v (JSObject.values o).
Proof.
  induction o as [| [k0 v0] o IH]; simpl; [discriminate |].
  destruct (String.eqb k0 k).
  - intros [= ->]. now left.
  - intros H. right. now apply IH.
Qed.

Lemma getOwn_None (k : string) (o : JSObject.t A) :
  JSObject.getOwn k o = None <-> ~ In k (JSObject.keys o).
Proof.
  induction o as [| [k0 v0] o IH]; simpl.
  - tauto.
  - destruct (String.eqb_spec k0 k) as [-> | Hne].
    + split; [discriminate | intros H; exfalso; apply H; now left].
    + rewrite IH. intuition congruence.
Qed.

Lemma pop_nonempty (x : A) (l : list A) : exists y, JSObject.pop (x :: l) = Some y.
Proof.
  revert x. induction l as [| z l IH]; intros x.
  - now exists x.
  - destruct (IH z) as [y Hy]. exists y. exact Hy.
Qed.

Lemma pop_cons (x : A) (l : list A) :
  JSObject.pop (x :: l) = match JSObject.pop l with Some y => Some y | None => Some x end.
Proof.
  destruct l as [| y l]; [reflexivity |].
  change (JSObject.pop (x :: y :: l)) with (JSObject.pop (y :: l)).
  destruct (pop_nonempty y l) as [z ->]. reflexivity.
Qed.

Lemma pop_app_last (l : list A) (x : A) : JSObject.pop (l ++ [x]) = Some x.
Proof.
  induction l as [| y l IH]; [reflexivity |].
  simpl app. now rewrite pop_cons, IH.
Qed.

Lemma pop_None (l : list A) : JSObject.pop l = None <-> l = [].
Proof.
  split; [| now intros ->].
  destruct l as [| x l]; [reflexivity |].
  rewrite pop_cons. destruct (JSObject.pop l); discriminate.
Qed.

Lemma pop_app (l1 l2 : list A) :
  JSObject.pop (l1 ++ l2)
  = match JSObject.pop l2 with Some y => Some y | None => JSObject.pop l1 end.
Proof.
  induction l1 as [| x l1 IH]; simpl app.
  - destruct (JSObject.pop l2); reflexivity.
  - rewrite !pop_cons, IH.
    destruct (JSObject.pop l2); [reflexivity |].
    destruct (JSObject.pop l1); reflexivity.
Qed.

End ObjectFacts.

Lemma filter_none {A : Type} (f : A -> bool) (l : list A) :
  (forall x, In x l -> f x = false) -> filter f l = [].
Proof.
  induction l as [| x l IH]; intros H; [reflexivity |].
  simpl. rewrite H by now left.
  apply IH. intros y Hy. apply H. now right.
Qed.

Lemma includes_In (l : list string) (x : string) :
  JSObject.includes l x = true <-> In x l.
Proof.
  unfold JSObject.includes. rewrite existsb_exists. split.
  - intros (y & Hy & Heq). apply String.eqb_eq in Heq. now subst.
  - intros H. exists x. split; [assumption | apply String.eqb_refl].
Qed.

Lemma unique_In (l seen : list string) (x : string) :
  In x (JSObject.unique seen l) <-> In x l /\ ~ In x seen.
Proof.
  revert seen. induction l as [| y l IH]; intros seen; simpl.
  - tauto.
  - destruct (JSObject.includes seen y) eqn:E.
    + apply includes_In in E. rewrite IH. intuition (subst; tauto).
    + assert (~ In y seen) by (rewrite <- includes_In; congruence).
      simpl. rewrite IH. simpl.
      destruct (string_dec y x); intuition (subst; tauto).
Qed.

(** Induction on DOM trees, with the hypothesis on every child. *)
Lemma Node_induction (P : Dom.Node -> Prop) :
  (forall ty tag attrs cs, Forall P cs -> P (Dom.mkNode ty tag attrs cs)) ->
  forall n, P n.
Proof.
  intros step. fix IH 1. intros [ty tag attrs cs].
  apply step. induction cs as [| c cs IHcs]; constructor; [apply IH | exact IHcs].
Qed.

(** ** Registration *)

Section RegistryFacts.

Context {collaborators : Collaborators}.

(** Registering a tree is registering, one after the other, the descriptors
    of [constructions]. *)
Lemma _registerElement_fold (dom : Dom.Node) :
  forall index parent this,
    _registerElement dom index parent this
    = fold_left registerOne (map snd (constructions dom index parent)) this.
Proof.
  induction dom as [ty tag attrs cs IH] using Node_induction.
  intros index parent this. simpl.
  change (registerOne this (newElementInfo (Dom.mkNode ty tag attrs cs) index parent))
    with (registerItself (newElementInfo (Dom.mkNode ty tag attrs cs) index parent)
                         parent this).
  generalize (registerItself (newElementInfo (Dom.mkNode ty tag attrs cs) index parent)
                             parent this) as that.
  generalize (newElementInfo (Dom.mkNode ty tag attrs cs) index parent) as element.
  intros element. generalize 0 as i.
  induction IH as [| c cs Hc _ IHcs]; intros i that; [reflexivity |].
  rewrite map_app, fold_left_app, <- IHcs.
  destruct (Dom.isElement c); [now rewrite Hc | reflexivity].
Qed.

Lemma registerTemplates_fold (templates : list (string * TemplateConfig)) :
  forall this,
    fold_left registerTemplate templates this
    = fold_left registerOne (registrations templates) this.
Proof.
  induction templates as [| entry templates IH]; intros this; [reflexivity |].
  simpl. unfold registrations in *. simpl.
  rewrite fold_left_app, <- IH. f_equal.
  unfold registerTemplate. now rewrite _registerElement_fold.
Qed.

Lemma elements_fold (els : list ElementInfo) :
  forall this,
    _elements (fold_left registerOne els this)
    = fold_left (fun o el => JSObject.set (name el) el o) els (_elements this).
Proof.
  induction els as [| el els IH]; intros this; [reflexivity |].
  simpl. now rewrite IH.
Qed.

Lemma schema_fold (els : list ElementInfo) :
  forall this,
    schema (fold_left registerOne els this)
    = (schema this ++
       map (fun el =>
              Register (name el)
                {| isObject := true;
                   isBlock := true;
                   allowIn := match parent el with Some p => name p | None => "$root" end;
                   allowAttributes := JSObject.keys (attributes el) |}) els)%list.
Proof.
  induction els as [| el els IH]; intros this; simpl.
  - now rewrite app_nil_r.
  - rewrite IH. simpl. now rewrite <- app_assoc.
Qed.

(** Under each name the registry holds the descriptor registered last with
    that name. *)
Lemma getOwn_fold (els : list ElementInfo) :
  forall (o : JSObject.t ElementInfo) k,
    JSObject.getOwn k (fold_left (fun o el => JSObject.set (name el) el o) els o)
    = match JSObject.pop (filter (fun el => String.eqb (name el) k) els) with
      | Some el => Some el
      | None => JSObject.getOwn k o
      end.
Proof.
  induction els as [| el els IH]; intros o k; [reflexivity |].
  simpl fold_left. rewrite IH, getOwn_set. simpl filter.
  destruct (String.eqb (name el) k); [rewrite pop_cons |];
    destruct (JSObject.pop (filter _ els)); reflexivity.
Qed.

(** With pairwise distinct names the registry enumerates the descriptors in
    registration order. *)
Lemma values_fold (els : list ElementInfo) :
  forall o : JSObject.t ElementInfo,
    NoDup (JSObject.keys o ++ map name els) ->
    JSObject.values (fold_left (fun o el => JSObject.set (name el) el o) els o)
    = (JSObject.values o ++ els)%list.
Proof.
  induction els as [| el els IH]; intros o Hnd; simpl.
  - now rewrite app_nil_r.
  - assert (Hfresh : ~ In (name el) (JSObject.keys o)).
    { intros Hin. apply NoDup_remove_2 in Hnd. apply Hnd, in_or_app. now left. }
    rewrite (set_fresh _ _ _ Hfresh), IH.
    + unfold JSObject.values. rewrite map_app. simpl. now rewrite <- app_assoc.
    + unfold JSObject.keys. rewrite map_app. simpl. rewrite <- app_assoc. exact Hnd.
Qed.

Lemma init_elements (templates : list (string * TemplateConfig)) (this : Plugin) :
  _elements (init templates this)
  = fold_left (fun o el => JSObject.set (name el) el o) (registrations templates)
              (_elements this).
Proof.
  unfold init. simpl. now rewrite registerTemplates_fold, elements_fold.
Qed.

Lemma getAttribute_setAttribute (dom : Dom.Node) (k v : string) :
  Dom.getAttribute (Dom.setAttribute dom k v) k = Some v.
Proof.
  destruct dom as [ty tag attrs cs]. unfold Dom.getAttribute. simpl.
  now rewrite getOwn_set, String.eqb_refl.
Qed.

Lemma registrations_app (ts1 ts2 : list (string * TemplateConfig)) :
  registrations (ts1 ++ ts2) = (registrations ts1 ++ registrations ts2)%list.
Proof. unfold registrations. apply flat_map_app. Qed.

Lemma root_registered (templates : list (string * TemplateConfig))
      (entry : string * TemplateConfig) :
  In entry templates ->
  In (newElementInfo (templateDom entry) 0 None) (registrations templates).
Proof.
  intros Hin. unfold registrations. apply in_flat_map. exists entry.
  split; [assumption |].
  destruct (templateDom entry) as [ty tag attrs cs]. simpl. now left.
Qed.

(** The source's own form of the loop: the child nodes, filtered to the
    elements, each registered with the new descriptor as its parent. *)
Lemma _registerElement_children ty tag attrs cs index parent this :
  let dom := Dom.mkNode ty tag attrs cs in
  let element := newElementInfo dom index parent in
  _registerElement dom index parent this
  = fold_left (fun that ic => _registerElement (snd ic) (fst ic) (Some element) that)
              (filter (fun ic => Dom.isElement (snd ic))
                      (combine (seq 0 (List.length cs)) cs))
              (registerItself element parent this).
Proof.
  intros dom element. subst dom. simpl. fold element. clearbody element.
  generalize (registerItself element parent this) as that.
  generalize 0 as i.
  induction cs as [| c cs IH]; intros i that; [reflexivity |].
  simpl. destruct (Dom.isElement c); simpl; apply IH.
Qed.

Lemma constructions_elements (dom : Dom.Node) :
  forall index parent,
    Forall (fun c => Dom.nodeType (fst c) = 1) (tl (constructions dom index parent)).
Proof.
  induction dom as [ty tag attrs cs IH] using Node_induction.
  intros index parent. simpl.
  generalize (newElementInfo (Dom.mkNode ty tag attrs cs) index parent) as element.
  intros element.
  set (P := fun c : Dom.Node * ElementInfo => Dom.nodeType (fst c) = 1) in *.
  generalize 0 as i.
  induction IH as [| c cs Hc _ IHcs]; intros i; [constructor |].
  apply Forall_app. split; [| apply IHcs].
  destruct (Dom.isElement c) eqn:E; [| constructor].
  specialize (Hc i (Some element)).
  destruct c as [ty' tag' attrs' cs']. simpl in Hc |- *.
  constructor; [| exact Hc].
  now apply Nat.eqb_eq in E.
Qed.

Lemma descriptorTree_children ty tag attrs cs index parent :
  List.length (children (descriptorTree (Dom.mkNode ty tag attrs cs) index parent))
  = List.length (filter Dom.isElement cs).
Proof.
  simpl.
  generalize (newElementInfo (Dom.mkNode ty tag attrs cs) index parent) as element.
  intros element. generalize 0 as i.
  induction cs as [| c cs IH]; intros i; [reflexivity |].
  simpl. destruct (Dom.isElement c); simpl; now rewrite IH.
Qed.

(** C9.  Registering a parsed template constructs and registers descriptors
    only for the node it is given and, below it, for child nodes that are
    elements ([nodeType] 1): the registration is exactly the registration of
    the descriptors of [constructions], all of which, past the first, come
    from element nodes; text, comment and other nodes yield no descriptor,
    and the required children of a descriptor are as many as the element
    children of its node. *)
Theorem registration_only_of_elements (dom : Dom.Node) (index : nat)
        (parent : option ElementInfo) (this : Plugin) :
  _registerElement dom index parent this
  = fold_left registerOne (map snd (constructions dom index parent)) this
  /\ Forall (fun c => Dom.nodeType (fst c) = 1) (tl (constructions dom index parent))
  /\ List.length (children (descriptorTree dom index parent))
     = List.length (filter Dom.isElement (Dom.childNodes dom)).
Proof.
  split; [apply _registerElement_fold |].
  split; [apply constructions_elements |].
  destruct dom as [ty tag attrs cs]. apply descriptorTree_children.
Qed.

Lemma init_schema (templates : list (string * TemplateConfig)) (this : Plugin) :
  schema (init templates this)
  = (schema this ++
     map (fun el =>
            Register (name el)
              {| isObject := true;
                 isBlock := true;
                 allowIn := match parent el with Some p => name p | None => "$root" end;
                 allowAttributes := JSObject.keys (attributes el) |})
         (registrations templates) ++
     [ Extend "$text" (map (fun key => ("ck__" ++ key)%string) (map fst templates)) ])%list.
Proof.
  unfold init. simpl. rewrite registerTemplates_fold, schema_fold.
  now rewrite <- app_assoc.
Qed.

Lemma schema_register_calls (templates : list (string * TemplateConfig))
      (item : string) (definition : SchemaDefinition) :
  In (Register item definition) (schema (init templates constructor))
  <-> exists el,
        In el (registrations templates)
        /\ item = name el
        /\ definition
           = {| isObject := true;
                isBlock := true;
                allowIn := match parent el with Some p => name p | None => "$root" end;
                allowAttributes := JSObject.keys (attributes el) |}.
Proof.
  rewrite init_schema. simpl. rewrite in_app_iff, in_map_iff. split.
  - intros [(el & Heq & Hin) | [Heq | []]]; [| discriminate].
    injection Heq as <- <-. now exists el.
  - intros (el & Hin & -> & ->). left. now exists el.
Qed.

(** C7.  The schema registrations made by [init] are exactly one per
    constructed descriptor, and each allows the element in one place only:
    inside the element named after the descriptor's parent when it has one,
    and under [$root] when it has none. *)
Theorem registration_placement (templates : list (string * TemplateConfig))
        (item : string) (definition : SchemaDefinition) :
  In (Register item definition) (schema (init templates constructor))
  <-> exists el,
        In el (registrations templates)
        /\ item = name el
        /\ allowIn definition
           = match parent el with Some p => name p | None => "$root" end
        /\ definition
           = {| isObject := true;
                isBlock := true;
                allowIn := allowIn definition;
                allowAttributes := JSObject.keys (attributes el) |}.
Proof.
  rewrite schema_register_calls. split.
  - intros (el & Hin & -> & ->). exists el. now repeat split.
  - intros (el & Hin & -> & Hallow & Hdef). exists el.
    rewrite Hdef, Hallow. now repeat split.
Qed.

(** C3.  For every configured definition [n], the descriptor constructed
    for the document element of its markup is a root, is named
    ["tpl__" + n], is among the descriptors [init] registers, and is
    registered with the schema under that name directly under [$root]. *)
Theorem root_descriptor_name (templates : list (string * TemplateConfig))
        (n : string) (cfg : TemplateConfig) :
  In (n, cfg) templates ->
  let root := newElementInfo (templateDom (n, cfg)) 0 None in
  name root = "tpl__" ++ n
  /\ parent root = None
  /\ In root (registrations templates)
  /\ In (Register ("tpl__" ++ n)
           {| isObject := true;
              isBlock := true;
              allowIn := "$root";
              allowAttributes := JSObject.keys (attributes root) |})
        (schema (init templates constructor)).
Proof.
  intros Hin root.
  assert (Hname : name root = "tpl__" ++ n).
  { unfold root, templateDom. simpl. now rewrite getAttribute_setAttribute. }
  assert (Hroot : In root (registrations templates)) by now apply root_registered.
  repeat split; try assumption.
  apply schema_register_calls. exists root. rewrite Hname. now repeat split.
Qed.

End RegistryFacts.

(** C3 at the configuration of the documentation: the root of [simple]. *)
Lemma root_descriptor_name_simple :
  name (@newElementInfo Example.collaborators
          (@templateDom Example.collaborators
             (Example.config "simple" Example.simpleMarkup)) 0 None)
  = "tpl__simple".
Proof.
  exact (proj1 (@root_descriptor_name Example.collaborators
                  [ Example.config "simple" Example.simpleMarkup ]
                  "simple" {| label := "simple"; template := Example.simpleMarkup |}
                  (or_introl eq_refl))).
Defined.

Section RegistryContents.

Context {collaborators : Collaborators}.

(** C1.  When the registered names are pairwise distinct, the descriptor
    found for a view element is the one registered last among those whose
    matcher accepts the element and whose type is in the filter. *)
Theorem last_registered_match_wins
        (templates : list (string * TemplateConfig)) (viewElement : ViewElement)
        (types : list string) (before after : list ElementInfo) (el : ElementInfo) :
  NoDup (map name (registrations templates)) ->
  registrations templates = (before ++ el :: after)%list ->
  matches el viewElement && JSObject.includes types (type el) = true ->
  (forall x, In x after ->
             matches x viewElement && JSObject.includes types (type x) = false) ->
  _findMatchingTemplateElement (init templates constructor) viewElement types = Some el.
Proof.
  intros Hnd Hregs Hel Hafter.
  unfold _findMatchingTemplateElement.
  rewrite init_elements, values_fold by exact Hnd.
  simpl. rewrite Hregs, filter_app. simpl. rewrite Hel.
  rewrite (filter_none _ after) by exact Hafter.
  apply pop_app_last.
Qed.

(** C8.  When no registered descriptor both accepts the view element and has
    its type in the filter, the search finds nothing and the upcast handler
    produces no model element. *)
Theorem upcast_none_without_match
        (this : Plugin) (types : list string)
        (model : ElementInfo -> ViewElement -> ModelElement) (viewElement : ViewElement) :
  (forall el, In el (JSObject.values (_elements this)) ->
              matches el viewElement && JSObject.includes types (type el) = false) ->
  _findMatchingTemplateElement this viewElement types = None
  /\ upcastTemplateElement this types model viewElement = None.
Proof.
  intros Hnone.
  assert (Hfind : _findMatchingTemplateElement this viewElement types = None).
  { unfold _findMatchingTemplateElement.
    now rewrite filter_none by exact Hnone. }
  split; [exact Hfind |].
  unfold upcastTemplateElement. now rewrite Hfind.
Qed.

End RegistryContents.

(** C1 at two templates of the same shape: both descriptors accept the view
    element, and the one registered second is found. *)
Lemma last_registered_match_wins_twins :
  @_findMatchingTemplateElement Example.collaborators
    (Example.plugin [ Example.config "a" Example.simpleMarkup;
                      Example.config "b" Example.simpleMarkup ])
    (createContainerElement "div" [ ("class", "simple") ]) [ "element" ]
  = Some {| name := "tpl__b"; tagName := "div"; type := "element";
            attributes := [ ("class", "simple"); ("ck-name", "b") ];
            parent := None |}.
Proof.
  apply (@last_registered_match_wins Example.collaborators
           [ Example.config "a" Example.simpleMarkup;
             Example.config "b" Example.simpleMarkup ]
           (createContainerElement "div" [ ("class", "simple") ]) [ "element" ]
           [ {| name := "tpl__a"; tagName := "div"; type := "element";
                attributes := [ ("class", "simple"); ("ck-name", "a") ];
                parent := None |} ]
           []).
  - simpl. repeat constructor; simpl; intuition discriminate.
  - reflexivity.
  - reflexivity.
  - intros x [].
Defined.

(** C8 at the [simple] template and a [span]: nothing matches, nothing is
    built. *)
Lemma upcast_none_without_match_span :
  @upcast Example.collaborators
    (Example.plugin [ Example.config "simple" Example.simpleMarkup ])
    (createContainerElement "span" [])
  = None.
Proof.
  apply (@upcast_none_without_match Example.collaborators).
  intros el [<- | []]. reflexivity.
Defined.

(** ** Look-ups and conversion *)

Lemma get_Own {A : Type} (k : string) (o : JSObject.t A) (v : A) :
  JSObject.get k o = JSObject.Own v <-> JSObject.getOwn k o = Some v.
Proof.
  unfold JSObject.get. destruct (JSObject.getOwn k o).
  - split; intros [= ->]; reflexivity.
  - destruct (existsb _ _); split; discriminate.
Qed.

Lemma registered_type_included (this : Plugin) (el : ElementInfo) :
  In el (JSObject.values (_elements this)) ->
  JSObject.includes (_elementTypes this) (type el) = true.
Proof.
  intros Hin. apply includes_In. unfold _elementTypes. apply unique_In.
  split; [now apply in_map | tauto].
Qed.

(** A name that is neither registered nor a property of [Object.prototype]
    reads as [undefined]. *)
Lemma getElementInfo_unregistered (this : Plugin) (n : string) :
  ~ In n (JSObject.keys (_elements this)) ->
  ~ In n JSObject.ObjectPrototype ->
  getElementInfo this n = JSObject.Undefined.
Proof.
  intros Hkey Hproto. unfold getElementInfo, JSObject.get.
  apply getOwn_None in Hkey. rewrite Hkey.
  destruct (existsb (String.eqb n) JSObject.ObjectPrototype) eqn:E; [| reflexivity].
  exfalso. apply Hproto. apply existsb_exists in E as (y & Hy & Heq).
  apply String.eqb_eq in Heq. now subst.
Qed.

(** A type that no registered descriptor has yields the empty array. *)
Lemma getElementsByType_unregistered (this : Plugin) (ty : string) :
  (forall el, In el (JSObject.values (_elements this)) -> type el <> ty) ->
  getElementsByType this ty = [].
Proof.
  intros Hty. unfold getElementsByType. apply filter_none.
  intros el Hin. apply String.eqb_neq. now apply Hty.
Qed.

(** C10, at the name [toString] on the registry as the constructor leaves
    it: nothing is registered, and the look-up answers with the function
    inherited from [Object.prototype], not with [undefined]. *)
Theorem getElementInfo_inherited :
  JSObject.keys (_elements constructor) = []
  /\ getElementInfo constructor "toString" = JSObject.Inherited "toString"
  /\ getElementInfo constructor "toString" <> JSObject.Undefined.
Proof. repeat split. discriminate. Qed.

(** C4.  For a model element whose name is registered with a descriptor of
    type ["element"]: the editing downcast builds the plain container when
    the descriptor has a parent, and the container marked as a widget when it
    has none; the data downcast builds the plain container in either case
    and never the marked one. *)
Theorem widget_only_for_roots_in_editing
        (this : Plugin) (modelElement : ModelElement) (el : ElementInfo) :
  getElementInfo this (modelName modelElement) = JSObject.Own el ->
  type el = "element" ->
  let container :=
    createContainerElement (tagName el) (getModelAttributes el modelElement) in
  (forall p, parent el = Some p -> editingDowncast this modelElement = Some container)
  /\ (parent el = None -> editingDowncast this modelElement = Some (toWidget container))
  /\ dataDowncast this modelElement = Some container
  /\ isWidget container = false
  /\ isWidget (toWidget container) = true.
Proof.
  intros Hget Hty container. unfold getElementInfo in Hget.
  assert (Hin : In el (JSObject.values (_elements this))).
  { apply get_Own in Hget. eapply getOwn_values, Hget. }
  unfold editingDowncast, dataDowncast, downcastTemplateElement.
  rewrite Hget, (registered_type_included _ _ Hin), Hty. simpl.
  unfold editingDowncastView, dataDowncastView. fold container.
  repeat split.
  - intros p ->. reflexivity.
  - intros ->. reflexivity.
Qed.

(** C4 at the [complex] template: its root is a widget in the editing view
    only. *)
Lemma widget_only_for_roots_in_editing_complex :
  let this := Example.plugin [ Example.config "complex" Example.complexMarkup ] in
  let root := createElement "tpl__complex" [ ("class", "parent") ] in
  let child := createElement "tpl__complex__child0" [ ("class", "child") ] in
  editingDowncast this root
  = Some (toWidget (createContainerElement "div" [ ("class", "parent") ]))
  /\ dataDowncast this root = Some (createContainerElement "div" [ ("class", "parent") ])
  /\ editingDowncast this child
     = Some (createContainerElement "div" [ ("class", "child") ]).
Proof.
  intros this root child.
  destruct (widget_only_for_roots_in_editing this root
              {| name := "tpl__complex"; tagName := "div"; type := "element";
                 attributes := [ ("class", "parent"); ("ck-name", "complex") ];
                 parent := None |} eq_refl eq_refl) as (_ & Hroot & Hdata & _).
  split; [exact (Hroot eq_refl) |]. split; [exact Hdata |].
  reflexivity.
Defined.

(** ** Round trips *)

Lemma filter_all {A : Type} (f : A -> bool) (l : list A) :
  (forall x, In x l -> f x = true) -> filter f l = l.
Proof.
  induction l as [| x l IH]; intros H; [reflexivity |].
  simpl. rewrite H by now left.
  f_equal. apply IH. intros y Hy. apply H. now right.
Qed.


Section RoundTripFacts.

Context {collaborators : Collaborators}.

(** Whatever the matcher: of two descriptors with the same tag, registered
    under different names, at most one has the round-trip property, since
    without attributes their model elements have the same view. *)
Lemma round_trip_excludes_same_tag (this : Plugin) (D1 D2 : ElementInfo) :
  JSObject.getOwn (name D1) (_elements this) = Some D1 ->
  JSObject.getOwn (name D2) (_elements this) = Some D2 ->
  tagName D1 = tagName D2 ->
  name D1 <> name D2 ->
  ~ (RoundTrip this D1 /\ RoundTrip this D2).
Proof.
  intros H1 H2 Htag Hname [R1 R2].
  destruct (R1 [] (fun kv (H : In kv []) => match H with end)) as (v1 & Hd1 & Hu1).
  destruct (R2 [] (fun kv (H : In kv []) => match H with end)) as (v2 & Hd2 & Hu2).
  unfold dataDowncast, downcastTemplateElement, JSObject.get in Hd1, Hd2.
  simpl in Hd1, Hd2. rewrite H1 in Hd1. rewrite H2 in Hd2.
  destruct (JSObject.includes _ (type D1)); [| discriminate].
  destruct (JSObject.includes _ (type D2)); [| discriminate].
  unfold dataDowncastView, getModelAttributes, restrictTo in Hd1, Hd2.
  simpl in Hd1, Hd2. rewrite Htag in Hd1.
  assert (v1 = v2) by congruence. subst v2.
  rewrite Hu1 in Hu2. unfold createElement in Hu2. congruence.
Qed.

End RoundTripFacts.


(** ** Repair *)

(** Induction on descriptors, with the hypothesis on every required child. *)
Lemma Descriptor_induction (P : Descriptor -> Prop) :
  (forall el cs, Forall P cs -> P (mkDescriptor el cs)) ->
  forall D, P D.
Proof.
  intros step. fix IH 1. intros [el cs].
  apply step. induction cs as [| c cs IHcs]; constructor; [apply IH | exact IHcs].
Qed.

Section RepairFacts.

Import Integrity.

Variable registry : Registry.

Lemma materialize_name (D : Descriptor) :
  modelName (materialize registry D) = name (info D).
Proof. now destruct D. Qed.

Lemma repairElement_name (D : Descriptor) (node : ModelElement) :
  modelName (fst (repairElement registry D node)) = modelName node.
Proof. destruct D as [el [| d ds]]; reflexivity. Qed.

Lemma freshChildren_inOrder (ds : list Descriptor) :
  Forall (fun Dc => consistent registry Dc (materialize registry Dc) = true) ds ->
  inOrder registry (consistent registry) ds
          (freshChildren registry (materialize registry) ds) = true.
Proof.
  induction 1 as [| Dc ds Hc _ IH]; [reflexivity |].
  simpl. destruct (registered registry Dc); simpl; [| exact IH].
  now rewrite materialize_name, String.eqb_refl, Hc, IH.
Qed.

Lemma materialize_consistent (D : Descriptor) :
  consistent registry D (materialize registry D) = true.
Proof.
  induction D as [el cs IH] using Descriptor_induction.
  destruct cs as [| d ds]; [reflexivity |].
  apply (freshChildren_inOrder (d :: ds) IH).
Qed.

(** After the walk the children are in order. *)
Lemma walk_inOrder (ds : list Descriptor) :
  Forall (fun Dc => forall c, consistent registry Dc (fst (repairElement registry Dc c)) = true)
         ds ->
  forall actual,
    inOrder registry (consistent registry) ds
            (nodes (walk registry (repairElement registry) ds actual)) = true.
Proof.
  induction 1 as [| Dc ds Hc _ IH]; intros actual; [reflexivity |].
  simpl. destruct (registered registry Dc); simpl; [| apply IH].
  destruct actual as [| c actual'].
  - simpl.
    now rewrite materialize_name, String.eqb_refl, materialize_consistent, IH.
  - destruct (String.eqb (modelName c) (name (info Dc))) eqn:En; simpl.
    + now rewrite repairElement_name, En, Hc, IH.
    + now rewrite materialize_name, String.eqb_refl, materialize_consistent, IH.
Qed.

Lemma repairElement_consistent (D : Descriptor) :
  forall node, consistent registry D (fst (repairElement registry D node)) = true.
Proof.
  induction D as [el cs IH] using Descriptor_induction. intros node.
  destruct cs as [| d ds]; [reflexivity |].
  simpl fst. apply (walk_inOrder (d :: ds) IH).
Qed.

(** Children in order all have the type of a required child. *)
Lemma inOrder_names (valid : Descriptor -> ModelElement -> bool) (ds : list Descriptor) :
  forall actual,
    inOrder registry valid ds actual = true ->
    forall c, In c actual -> In (modelName c) (map (fun Dc => name (info Dc)) ds).
Proof.
  induction ds as [| Dc ds IH]; intros actual H c Hin.
  - destruct actual; [destruct Hin | discriminate].
  - simpl in H. destruct (registered registry Dc); simpl in H.
    + destruct actual as [| c0 actual']; [discriminate |].
      apply andb_prop in H as [H Hrest]. apply andb_prop in H as [Hn _].
      destruct Hin as [<- | Hin].
      * left. symmetry. now apply String.eqb_eq.
      * right. now apply (IH actual').
    + right. now apply (IH actual).
Qed.

(** Children in order are walked without a change. *)
Lemma walk_of_inOrder (ds : list Descriptor) :
  Forall (fun Dc => forall c, consistent registry Dc c = true ->
                              repairElement registry Dc c = (c, []))
         ds ->
  forall actual,
    inOrder registry (consistent registry) ds actual = true ->
    walk registry (repairElement registry) ds actual
    = {| nodes := actual; touchedBelow := []; modified := false |}.
Proof.
  induction 1 as [| Dc ds Hc _ IH]; intros actual H.
  - destruct actual; [reflexivity | discriminate].
  - simpl in H |- *. destruct (registered registry Dc); simpl in H |- *.
    + destruct actual as [| c actual']; [discriminate |].
      apply andb_prop in H as [H Hrest]. apply andb_prop in H as [Hn Hv].
      rewrite Hn, (Hc c Hv), (IH actual' Hrest). reflexivity.
    + now apply IH.
Qed.

Lemma repairElement_of_consistent (D : Descriptor) :
  forall node,
    consistent registry D node = true -> repairElement registry D node = (node, []).
Proof.
  induction D as [el cs IH] using Descriptor_induction. intros node H.
  destruct cs as [| d ds]; [reflexivity |].
  change (inOrder registry (consistent registry) (d :: ds) (modelChildren node) = true) in H.
  unfold repairElement; fold repairElement.
  rewrite (filter_all _ (modelChildren node)).
  - rewrite (walk_of_inOrder (d :: ds) IH _ H), Nat.eqb_refl. simpl.
    now destruct node.
  - intros c Hin. apply includes_In. now apply (inOrder_names _ _ _ H).
Qed.

Lemma postfix_of_consistent (node : ModelElement) :
  consistentNode registry node = true -> postfix registry node = (node, []).
Proof.
  unfold consistentNode, postfix.
  destruct (lookupByName registry (modelName node)); [| reflexivity].
  apply repairElement_of_consistent.
Qed.

Lemma postfix_consistent (node : ModelElement) :
  consistentNode registry (fst (postfix registry node)) = true.
Proof.
  unfold consistentNode, postfix.
  destruct (lookupByName registry (modelName node)) as [D |] eqn:E.
  - rewrite repairElement_name, E. apply repairElement_consistent.
  - simpl. now rewrite E.
Qed.

Lemma repair_of_consistent (changed : list ModelElement) :
  forallb (consistentNode registry) changed = true ->
  repair registry changed = (changed, []).
Proof.
  unfold repair. induction changed as [| node changed IH]; [reflexivity |].
  simpl. intros H. apply andb_prop in H as [Hn Hrest].
  specialize (IH Hrest). injection IH as IH1 IH2.
  now rewrite (postfix_of_consistent _ Hn), IH1, IH2.
Qed.

Lemma repair_consistent (changed : list ModelElement) :
  forallb (consistentNode registry) (fst (repair registry changed)) = true.
Proof.
  unfold repair. simpl. induction changed as [| node changed IH]; [reflexivity |].
  simpl. now rewrite postfix_consistent, IH.
Qed.

(** C6.  A second call of [repair], on the nodes as the first call left them,
    touches nothing and changes nothing; and [repair] on nodes that are
    already consistent touches nothing. *)
Theorem repair_idempotent (changed : list ModelElement) :
  snd (repair registry (fst (repair registry changed))) = []
  /\ fst (repair registry (fst (repair registry changed))) = fst (repair registry changed)
  /\ (forallb (consistentNode registry) changed = true ->
      snd (repair registry changed) = []).
Proof.
  rewrite (repair_of_consistent _ (repair_consistent changed)).
  repeat split.
  intros H. now rewrite (repair_of_consistent _ H).
Qed.

End RepairFacts.

(** C6 at the [complex] template: a root that lost its child gets it back
    and is touched; the repaired root is consistent, and repairing it again
    touches nothing. *)
Lemma repair_idempotent_complex :
  let registry :=
    @descriptorRegistry Example.collaborators
      [ Example.config "complex" Example.complexMarkup ] in
  let damaged := mkModelElement "tpl__complex" [ ("class", "parent") ] [] in
  let whole :=
    mkModelElement "tpl__complex" [ ("class", "parent") ]
                   [ mkModelElement "tpl__complex__child0" [] [] ] in
  Integrity.repair registry [ damaged ] = ([ whole ], [ whole ])
  /\ snd (Integrity.repair registry [ whole ]) = [].
Proof.
  intros registry damaged whole. split; [reflexivity |].
  exact (proj2 (proj2 (repair_idempotent registry [ whole ])) eq_refl).
Defined.

(** ** The names written into the registry *)

Lemma prefix_append (p a b : string) :
  String.prefix p a = true -> String.prefix p (a ++ b) = true.
Proof.
  revert a. induction p as [| x p IH]; intros a H;
    [destruct (a ++ b); reflexivity |].
  destruct a as [| y a]; [discriminate |].
  simpl in H |- *. destruct (ascii_dec x y); [now apply IH | discriminate].
Qed.

Section Names.

Context {collaborators : Collaborators}.

Lemma newElementInfo_prefixed (dom : Dom.Node) (index : nat) (parent : option ElementInfo) :
  match parent with Some p => String.prefix "tpl__" (name p) = true | None => True end ->
  String.prefix "tpl__" (name (newElementInfo dom index parent)) = true.
Proof.
  destruct parent as [p |]; intros H.
  - simpl. now apply prefix_append.
  - apply (prefix_append "tpl__" "tpl__"). reflexivity.
Qed.

Lemma constructions_prefixed (dom : Dom.Node) :
  forall index parent,
    match parent with Some p => String.prefix "tpl__" (name p) = true | None => True end ->
    Forall (fun c => String.prefix "tpl__" (name (snd c)) = true)
           (constructions dom index parent).
Proof.
  induction dom as [ty tag attrs cs IH] using Node_induction.
  intros index parent Hp.
  pose proof (newElementInfo_prefixed (Dom.mkNode ty tag attrs cs) index parent Hp) as Hel.
  simpl. constructor; [exact Hel |].
  revert Hel.
  generalize (newElementInfo (Dom.mkNode ty tag attrs cs) index parent) as element.
  intros element Hel. generalize 0 as i.
  induction IH as [| c cs Hc _ IHcs]; intros i; [constructor |].
  apply Forall_app. split; [| apply IHcs].
  destruct (Dom.isElement c); [| constructor].
  now apply Hc.
Qed.

(** Every name [init] writes into [_elements] begins with [tpl__]. *)
Lemma registrations_prefixed (templates : list (string * TemplateConfig)) :
  Forall (fun el => String.prefix "tpl__" (name el) = true) (registrations templates).
Proof.
  unfold registrations. apply Forall_flat_map, Forall_forall. intros entry _.
  apply Forall_map. now apply constructions_prefixed.
Qed.

End Names.

(** * Further properties of the plugin *)

(** ** Arrays and objects, continued *)

Lemma pop_In {A : Type} (l : list A) (x : A) : JSObject.pop l = Some x -> In x l.
Proof.
  induction l as [| y l IH]; [discriminate |].
  rewrite pop_cons. destruct (JSObject.pop l) as [z |].
  - intros [= ->]. right. now apply IH.
  - intros [= ->]. now left.
Qed.

Lemma unique_NoDup (l seen : list string) : NoDup (JSObject.unique seen l).
Proof.
  revert seen. induction l as [| x l IH]; intros seen; simpl; [constructor |].
  destruct (JSObject.includes seen x); [apply IH |].
  constructor; [| apply IH].
  rewrite unique_In. intros [_ Hx]. apply Hx. now left.
Qed.

Lemma keys_set_extends {A : Type} (k : string) (v : A) (o : JSObject.t A) :
  exists added, JSObject.keys (JSObject.set k v o) = (JSObject.keys o ++ added)%list.
Proof.
  induction o as [| [k0 v0] o (added & IH)]; simpl.
  - now exists [ k ].
  - destruct (String.eqb_spec k0 k) as [-> | Hne]; simpl.
    + exists []. now rewrite app_nil_r.
    + exists added. now rewrite IH.
Qed.

Lemma set_NoDup {A : Type} (k : string) (v : A) (o : JSObject.t A) :
  NoDup (JSObject.keys o) -> NoDup (JSObject.keys (JSObject.set k v o)).
Proof.
  induction o as [| [k0 v0] o IH]; simpl; intros Hnd.
  - constructor; [intros [] | constructor].
  - inversion Hnd as [| ? ? Hnotin Hnd']; subst.
    destruct (String.eqb_spec k0 k) as [-> | Hne]; simpl.
    + now constructor.
    + constructor; [| now apply IH].
      rewrite keys_set. intros [-> | Hin]; [now apply Hne | now apply Hnotin].
Qed.

Lemma set_Forall {A : Type} (P : string * A -> Prop) (k : string) (v : A)
      (o : JSObject.t A) :
  P (k, v) -> Forall P o -> Forall P (JSObject.set k v o).
Proof.
  intros Hkv. induction o as [| [k0 v0] o IH]; simpl; intros Ho.
  - now constructor.
  - inversion Ho; subst. destruct (String.eqb k0 k); constructor; auto.
Qed.

Lemma getOwn_In_NoDup {A : Type} (k : string) (v : A) (o : JSObject.t A) :
  NoDup (JSObject.keys o) -> In (k, v) o -> JSObject.getOwn k o = Some v.
Proof.
  induction o as [| [k0 v0] o IH]; simpl; intros Hnd Hin; [destruct Hin |].
  inversion Hnd as [| ? ? Hnotin Hnd']; subst.
  destruct Hin as [[= -> ->] | Hin].
  - now rewrite String.eqb_refl.
  - destruct (String.eqb_spec k0 k) as [-> | Hne]; [| now apply IH].
    exfalso. apply Hnotin. unfold JSObject.keys.
    change k with (fst (k, v)). now apply in_map.
Qed.

(** Under each key, a sequence of assignments leaves the value assigned
    last. *)
Lemma getOwn_fold_set {A B : Type} (key : B -> string) (val : B -> A) (xs : list B) :
  forall (o : JSObject.t A) k,
    JSObject.getOwn k (fold_left (fun o x => JSObject.set (key x) (val x) o) xs o)
    = match JSObject.pop (filter (fun x => String.eqb (key x) k) xs) with
      | Some x => Some (val x)
      | None => JSObject.getOwn k o
      end.
Proof.
  induction xs as [| x xs IH]; intros o k; [reflexivity |].
  simpl fold_left. rewrite IH, getOwn_set. simpl filter.
  destruct (String.eqb (key x) k); [rewrite pop_cons |];
    destruct (JSObject.pop (filter _ xs)); reflexivity.
Qed.

Lemma pop_filter_unique (els : list ElementInfo) (el : ElementInfo) :
  NoDup (map name els) ->
  In el els ->
  JSObject.pop (filter (fun x => String.eqb (name x) (name el)) els) = Some el.
Proof.
  induction els as [| x els IH]; intros Hnd Hin; [destruct Hin |].
  inversion Hnd as [| ? ? Hnotin Hnd']; subst. simpl.
  destruct (String.eqb_spec (name x) (name el)) as [Heq | Hne].
  - assert (x = el) as ->.
    { destruct Hin as [-> | Hin]; [reflexivity |].
      exfalso. apply Hnotin. rewrite Heq. now apply in_map. }
    rewrite filter_none; [reflexivity |].
    intros y Hy. apply String.eqb_neq. intros Hy'.
    apply Hnotin. rewrite <- Hy'. now apply in_map.
  - destruct Hin as [-> | Hin]; [contradiction |]. now apply IH.
Qed.

(** ** Searching, upcast and downcast *)

Section SearchFacts.

Context {collaborators : Collaborators}.

Lemma find_accepted (this : Plugin) (viewElement : ViewElement) (types : list string)
      (el : ElementInfo) :
  _findMatchingTemplateElement this viewElement types = Some el ->
  In el (JSObject.values (_elements this))
  /\ matches el viewElement = true
  /\ JSObject.includes types (type el) = true.
Proof.
  unfold _findMatchingTemplateElement. intros H.
  apply pop_In, filter_In in H as [Hin Hacc].
  apply andb_prop in Hacc. tauto.
Qed.

(** X1.  The descriptor found for a view element is one of the registry,
    its matcher accepts the element and its type is in the filter. *)
Theorem found_descriptor_is_registered_match
        (this : Plugin) (viewElement : ViewElement) (types : list string)
        (el : ElementInfo) :
  _findMatchingTemplateElement this viewElement types = Some el ->
  In el (JSObject.values (_elements this))
  /\ matches el viewElement = true
  /\ JSObject.includes types (type el) = true.
Proof.
  unfold _findMatchingTemplateElement. intros Hpop.
  apply pop_In in Hpop. apply filter_In in Hpop as [Hin Hacc].
  apply andb_prop in Hacc as [Hm Hty].
  split; [exact Hin |]. split; [exact Hm | exact Hty].
Qed.

(** X2.  The search finds a descriptor exactly when the registry holds one
    whose matcher accepts the view element and whose type is in the filter. *)
Theorem search_succeeds_iff_some_match
        (this : Plugin) (viewElement : ViewElement) (types : list string) :
  (exists el, _findMatchingTemplateElement this viewElement types = Some el)
  <-> (exists el, In el (JSObject.values (_elements this))
                  /\ matches el viewElement && JSObject.includes types (type el) = true).
Proof.
  split.
  - intros (el & H). exists el. apply find_accepted in H as (Hin & Hm & Hty).
    now rewrite Hm, Hty.
  - intros (el & Hin & Hacc). unfold _findMatchingTemplateElement.
    destruct (JSObject.pop _) as [found |] eqn:E; [now exists found |].
    apply pop_None in E.
    assert (Hf : In el (filter (fun el => matches el viewElement
                                          && JSObject.includes types (type el))
                               (JSObject.values (_elements this))))
      by (apply filter_In; tauto).
    rewrite E in Hf. destruct Hf.
Qed.

(** X3.  Whatever the upcast handler builds is built by [config.model] from
    a registered descriptor whose matcher accepts the view element and whose
    type is in the filter; with the handler of [init] the model element is
    named after that descriptor. *)
Theorem upcast_builds_from_registered_match
        (this : Plugin) (types : list string)
        (model : ElementInfo -> ViewElement -> ModelElement)
        (viewElement : ViewElement) (modelElement : ModelElement) :
  upcastTemplateElement this types model viewElement = Some modelElement ->
  exists el,
    In el (JSObject.values (_elements this))
    /\ matches el viewElement = true
    /\ JSObject.includes types (type el) = true
    /\ modelElement = model el viewElement
    /\ modelName (upcastModel el viewElement) = name el.
Proof.
  unfold upcastTemplateElement.
  destruct (_findMatchingTemplateElement this viewElement types) as [el |] eqn:E;
    [| discriminate].
  simpl. intros [= <-]. exists el.
  apply find_accepted in E as (Hin & Hm & Hty). now repeat split.
Qed.

(** X4.  For a model element whose name is not a key of the registry the
    downcast handler builds nothing, whatever the type filter; this holds
    also for the names that [Object.prototype] defines. *)
Theorem downcast_ignores_unregistered
        (this : Plugin) (types : list string)
        (view : ElementInfo -> ModelElement -> ViewElement) (modelElement : ModelElement) :
  ~ In (modelName modelElement) (JSObject.keys (_elements this)) ->
  downcastTemplateElement this types view modelElement = None.
Proof.
  intros Hkey. apply getOwn_None in Hkey.
  unfold downcastTemplateElement, JSObject.get. rewrite Hkey.
  destruct (existsb _ _); reflexivity.
Qed.

(** X5.  A registered descriptor whose type is not ["element"] is left out
    by the editing downcast of [init], while the data downcast, whose filter
    is the list of all registered types, builds its container. *)
Theorem editing_downcast_skips_other_types
        (this : Plugin) (modelElement : ModelElement) (el : ElementInfo) :
  getElementInfo this (modelName modelElement) = JSObject.Own el ->
  type el <> "element" ->
  editingDowncast this modelElement = None
  /\ dataDowncast this modelElement
     = Some (createContainerElement (tagName el) (getModelAttributes el modelElement)).
Proof.
  intros Hget Hty. unfold getElementInfo in Hget.
  assert (Hin : In el (JSObject.values (_elements this))).
  { apply get_Own in Hget. eapply getOwn_values, Hget. }
  unfold editingDowncast, dataDowncast, downcastTemplateElement.
  rewrite Hget, (registered_type_included _ _ Hin). split; [| reflexivity].
  simpl. destruct (String.eqb_spec (type el) "element"); [contradiction | reflexivity].
Qed.

(** X13.  Whenever the editing downcast builds a view element, the data
    downcast builds one too, without the widget property and with the same
    tag, and the editing view element is either that very element or
    [toWidget] applied to it. *)
Theorem editing_and_data_views_agree
        (this : Plugin) (modelElement : ModelElement) (editingView : ViewElement) :
  editingDowncast this modelElement = Some editingView ->
  exists dataView,
    dataDowncast this modelElement = Some dataView
    /\ isWidget dataView = false
    /\ viewName editingView = viewName dataView
    /\ (editingView = dataView \/ editingView = toWidget dataView).
Proof.
  unfold editingDowncast, dataDowncast, downcastTemplateElement.
  destruct (JSObject.get (modelName modelElement) (_elements this)) as [| el | k] eqn:Hget;
    try discriminate.
  assert (Hin : In el (JSObject.values (_elements this))).
  { apply get_Own in Hget. eapply getOwn_values, Hget. }
  rewrite (registered_type_included _ _ Hin).
  destruct (JSObject.includes [ "element" ] (type el)); [| discriminate].
  intros [= <-]. eexists. split; [reflexivity |].
  unfold editingDowncastView, dataDowncastView.
  destruct (parent el); repeat split; [now left | now right].
Qed.

End SearchFacts.

(** X1 at the two templates of the same shape. *)
Lemma found_descriptor_is_registered_match_twins :
  let this := Example.plugin [ Example.config "a" Example.simpleMarkup;
                               Example.config "b" Example.simpleMarkup ] in
  let viewElement := createContainerElement "div" [ ("class", "simple") ] in
  let Db := {| name := "tpl__b"; tagName := "div"; type := "element";
               attributes := [ ("class", "simple"); ("ck-name", "b") ];
               parent := None |} in
  In Db (JSObject.values (_elements this))
  /\ Example.matches Db viewElement = true
  /\ JSObject.includes [ "element" ] (type Db) = true.
Proof.
  intros this viewElement Db.
  exact (@found_descriptor_is_registered_match Example.collaborators
           this viewElement [ "element" ] Db eq_refl).
Defined.

(** X3 at the [simple] template. *)
Lemma upcast_builds_from_registered_match_simple :
  exists el,
    In el (JSObject.values
             (_elements (Example.plugin [ Example.config "simple" Example.simpleMarkup ])))
    /\ Example.matches el (createContainerElement "div" [ ("class", "simple") ]) = true
    /\ JSObject.includes [ "element" ] (type el) = true
    /\ createElement "tpl__simple" [ ("class", "simple") ]
       = upcastModel el (createContainerElement "div" [ ("class", "simple") ])
    /\ modelName (upcastModel el (createContainerElement "div" [ ("class", "simple") ]))
       = name el.
Proof.
  exact (@upcast_builds_from_registered_match Example.collaborators
           (Example.plugin [ Example.config "simple" Example.simpleMarkup ])
           [ "element" ] upcastModel
           (createContainerElement "div" [ ("class", "simple") ])
           (createElement "tpl__simple" [ ("class", "simple") ]) eq_refl).
Defined.

(** X4 at a paragraph and at an element named [toString]. *)
Lemma downcast_ignores_unregistered_names :
  let this := Example.plugin [ Example.config "simple" Example.simpleMarkup ] in
  editingDowncast this (createElement "paragraph" []) = None
  /\ dataDowncast this (createElement "toString" []) = None.
Proof.
  intros this. split.
  - apply downcast_ignores_unregistered. simpl. intuition discriminate.
  - apply downcast_ignores_unregistered. simpl. intuition discriminate.
Defined.

(** X5 at a template that declares the type [placeholder]. *)
Lemma editing_downcast_skips_placeholder :
  let this := Example.plugin [ Example.config "typed" Example.typedMarkup ] in
  editingDowncast this (createElement "tpl__typed" []) = None
  /\ dataDowncast this (createElement "tpl__typed" [])
     = Some (createContainerElement "span" []).
Proof.
  intros this.
  apply (editing_downcast_skips_other_types this (createElement "tpl__typed" [])
           {| name := "tpl__typed"; tagName := "span"; type := "placeholder";
              attributes := [ ("ck-type", "placeholder"); ("ck-name", "typed") ];
              parent := None |} eq_refl).
  discriminate.
Defined.

(** X13 at the root of the [complex] template. *)
Lemma editing_and_data_views_agree_complex :
  exists dataView,
    dataDowncast (Example.plugin [ Example.config "complex" Example.complexMarkup ])
                 (createElement "tpl__complex" [ ("class", "parent") ])
    = Some dataView
    /\ isWidget dataView = false
    /\ viewName (toWidget (createContainerElement "div" [ ("class", "parent") ]))
       = viewName dataView
    /\ (toWidget (createContainerElement "div" [ ("class", "parent") ]) = dataView
        \/ toWidget (createContainerElement "div" [ ("class", "parent") ])
           = toWidget dataView).
Proof.
  exact (editing_and_data_views_agree
           (Example.plugin [ Example.config "complex" Example.complexMarkup ])
           (createElement "tpl__complex" [ ("class", "parent") ])
           (toWidget (createContainerElement "div" [ ("class", "parent") ])) eq_refl).
Defined.

(** ** The registry after [init] *)

Section RegistryInvariants.

Context {collaborators : Collaborators}.

Lemma init_getOwn (templates : list (string * TemplateConfig)) (k : string) :
  JSObject.getOwn k (_elements (init templates constructor))
  = JSObject.pop (filter (fun el => String.eqb (name el) k) (registrations templates)).
Proof.
  rewrite init_elements, getOwn_fold. simpl.
  destruct (JSObject.pop _); reflexivity.
Qed.

Lemma fold_set_names_invariant (els : list ElementInfo) :
  forall o : JSObject.t ElementInfo,
    NoDup (JSObject.keys o) ->
    Forall (fun kv => fst kv = name (snd kv)) o ->
    NoDup (JSObject.keys (fold_left (fun o el => JSObject.set (name el) el o) els o))
    /\ Forall (fun kv => fst kv = name (snd kv))
              (fold_left (fun o el => JSObject.set (name el) el o) els o).
Proof.
  induction els as [| el els IH]; intros o Hnd Hnames; [now split |].
  simpl. apply IH; [now apply set_NoDup | now apply set_Forall].
Qed.

Lemma init_names_invariant (templates : list (string * TemplateConfig)) :
  NoDup (JSObject.keys (_elements (init templates constructor)))
  /\ Forall (fun kv => fst kv = name (snd kv)) (_elements (init templates constructor)).
Proof.
  rewrite init_elements. apply fold_set_names_invariant; constructor.
Qed.

(** Every descriptor the registry enumerates is the one its own name looks
    up. *)
Lemma init_value_lookup (templates : list (string * TemplateConfig)) (el : ElementInfo) :
  In el (JSObject.values (_elements (init templates constructor))) ->
  JSObject.getOwn (name el) (_elements (init templates constructor)) = Some el.
Proof.
  intros Hin. destruct (init_names_invariant templates) as [Hnd Hnames].
  apply in_map_iff in Hin as ([k v] & <- & Hin).
  rewrite Forall_forall in Hnames. pose proof (Hnames _ Hin) as Hk. simpl in Hk.
  simpl. rewrite <- Hk. now apply getOwn_In_NoDup.
Qed.

(** X6.  The list of registered types has no duplicates and holds exactly
    the types of the descriptors in the registry. *)
Theorem elementTypes_are_the_registered_types (this : Plugin) :
  NoDup (_elementTypes this)
  /\ forall ty, In ty (_elementTypes this)
                <-> exists el, In el (JSObject.values (_elements this)) /\ type el = ty.
Proof.
  unfold _elementTypes. split; [apply unique_NoDup |].
  intros ty. rewrite unique_In, in_map_iff. split.
  - intros [(el & Hty & Hin) _]. now exists el.
  - intros (el & Hin & Hty). split; [now exists el | intros []].
Qed.

(** X7.  [getElementsByType] returns the registered descriptors of the given
    type and no others, and it returns at least one exactly for the types
    that [_elementTypes] lists. *)
Theorem getElementsByType_and_elementTypes (this : Plugin) (ty : string) :
  (forall el, In el (getElementsByType this ty)
              <-> In el (JSObject.values (_elements this)) /\ type el = ty)
  /\ (getElementsByType this ty <> [] <-> In ty (_elementTypes this)).
Proof.
  assert (Hspec : forall el, In el (getElementsByType this ty)
                             <-> In el (JSObject.values (_elements this)) /\ type el = ty).
  { intros el. unfold getElementsByType. rewrite filter_In, String.eqb_eq. tauto. }
  split; [exact Hspec |].
  unfold _elementTypes. rewrite unique_In, in_map_iff. split.
  - intros Hne. destruct (getElementsByType this ty) as [| el l] eqn:E; [now destruct Hne |].
    destruct (proj1 (Hspec el) (or_introl eq_refl)) as [Hin Hty].
    split; [now exists el | intros []].
  - intros [(el & Hty & Hin) _] Hempty.
    assert (Hel : In el (getElementsByType this ty)) by (apply Hspec; tauto).
    rewrite Hempty in Hel. destruct Hel.
Qed.

(** X8.  After [init] the keys of the registry are pairwise distinct, and a
    name looks up only a descriptor that [init] constructed and that bears
    this very name. *)
Theorem registry_keys_are_descriptor_names
        (templates : list (string * TemplateConfig)) :
  NoDup (JSObject.keys (_elements (init templates constructor)))
  /\ forall n el,
       getElementInfo (init templates constructor) n = JSObject.Own el ->
       name el = n /\ In el (registrations templates).
Proof.
  split; [apply init_names_invariant |].
  intros n el Hget. unfold getElementInfo in Hget. apply get_Own in Hget.
  rewrite init_getOwn in Hget. apply pop_In, filter_In in Hget as [Hin Hname].
  apply String.eqb_eq in Hname. now split.
Qed.

(** X9.  When the generated names are pairwise distinct, every descriptor
    that [init] constructs is found again under its name. *)
Theorem registered_descriptor_is_looked_up
        (templates : list (string * TemplateConfig)) (el : ElementInfo) :
  NoDup (map name (registrations templates)) ->
  In el (registrations templates) ->
  getElementInfo (init templates constructor) (name el) = JSObject.Own el.
Proof.
  intros Hnd Hin. unfold getElementInfo. apply get_Own.
  rewrite init_getOwn. now apply pop_filter_unique.
Qed.

Lemma typeMap_fold (els : list ElementInfo) :
  forall this,
    _typeMap (fold_left registerOne els this)
    = fold_left (fun o el => JSObject.put (type el) (name el) o) els (_typeMap this).
Proof.
  induction els as [| el els IH]; intros this; [reflexivity |].
  simpl. now rewrite IH.
Qed.

Lemma getOwn_put (k k' v : string) (o : JSObject.t string) :
  JSObject.getOwn k (JSObject.put k' v o)
  = if String.eqb k "__proto__" then JSObject.getOwn k o
    else if String.eqb k' k then Some v else JSObject.getOwn k o.
Proof.
  unfold JSObject.put.
  destruct (String.eqb_spec k' "__proto__") as [-> | Hk'].
  - destruct (String.eqb_spec k "__proto__") as [-> | Hk]; [reflexivity |].
    destruct (String.eqb_spec "__proto__" k); [congruence | reflexivity].
  - rewrite getOwn_set.
    destruct (String.eqb_spec k "__proto__") as [-> | Hk]; [| reflexivity].
    destruct (String.eqb_spec k' "__proto__"); [contradiction | reflexivity].
Qed.

Lemma getOwn_fold_put (els : list ElementInfo) :
  forall (o : JSObject.t string) k,
    JSObject.getOwn k (fold_left (fun o el => JSObject.put (type el) (name el) o) els o)
    = if String.eqb k "__proto__" then JSObject.getOwn k o
      else match JSObject.pop (filter (fun el => String.eqb (type el) k) els) with
           | Some el => Some (name el)
           | None => JSObject.getOwn k o
           end.
Proof.
  induction els as [| el els IH]; intros o k.
  - simpl. now destruct (String.eqb k "__proto__").
  - simpl fold_left. rewrite IH, getOwn_put. simpl filter.
    destruct (String.eqb k "__proto__"); [reflexivity |].
    destruct (String.eqb (type el) k); [rewrite pop_cons |];
      destruct (JSObject.pop (filter _ els)); reflexivity.
Qed.

(** X10.  After [init] the type map has, for every type other than
    [__proto__], the name of the descriptor registered last with that type,
    and no entry for a type that no descriptor has; for the type
    [__proto__] it never has an entry of its own. *)
Theorem typeMap_names_last_of_type
        (templates : list (string * TemplateConfig)) (ty : string) :
  JSObject.getOwn ty (_typeMap (init templates constructor))
  = if String.eqb ty "__proto__" then None
    else option_map name
           (JSObject.pop (filter (fun el => String.eqb (type el) ty)
                                 (registrations templates))).
Proof.
  unfold init. simpl. rewrite registerTemplates_fold, typeMap_fold.
  rewrite getOwn_fold_put. simpl.
  destruct (String.eqb ty "__proto__"); [reflexivity |].
  destruct (JSObject.pop _); reflexivity.
Qed.

Lemma fold_set_keys_extend (els : list ElementInfo) :
  forall o : JSObject.t ElementInfo,
    exists added,
      JSObject.keys (fold_left (fun o el => JSObject.set (name el) el o) els o)
      = (JSObject.keys o ++ added)%list.
Proof.
  induction els as [| el els IH]; intros o; simpl.
  - exists []. now rewrite app_nil_r.
  - destruct (IH (JSObject.set (name el) el o)) as (added & ->).
    destruct (keys_set_extends (name el) el o) as (added' & ->).
    exists (added' ++ added)%list. now rewrite app_assoc.
Qed.

(** X11.  The [forEach] of [init] only adds keys at the end of the registry:
    with the entries taken in [Object.keys] order, the keys of the registry
    after all entries begin with the keys of the registry after any initial
    part of them. *)
Theorem later_templates_keep_earlier_names
        (earlier later : list (string * TemplateConfig)) :
  exists added,
    JSObject.keys (_elements (init (earlier ++ later) constructor))
    = (JSObject.keys (_elements (init earlier constructor)) ++ added)%list.
Proof.
  rewrite !init_elements, registrations_app, fold_left_app.
  apply fold_set_keys_extend.
Qed.

(** X14.  A model element that the upcast of [init] builds is always taken
    by the data downcast, which builds the container with the tag of the
    descriptor that the upcast found. *)
Theorem upcast_result_is_downcast
        (templates : list (string * TemplateConfig))
        (viewElement : ViewElement) (modelElement : ModelElement) :
  upcast (init templates constructor) viewElement = Some modelElement ->
  exists el,
    _findMatchingTemplateElement (init templates constructor) viewElement
                                 (_elementTypes (init templates constructor))
    = Some el
    /\ modelName modelElement = name el
    /\ dataDowncast (init templates constructor) modelElement
       = Some (createContainerElement (tagName el)
                                      (getModelAttributes el modelElement)).
Proof.
  unfold upcast, upcastTemplateElement.
  destruct (_findMatchingTemplateElement _ viewElement _) as [el |] eqn:E;
    [| discriminate].
  simpl. intros [= <-]. exists el. split; [reflexivity |]. split; [reflexivity |].
  apply find_accepted in E as (Hin & _ & Hty).
  unfold dataDowncast, downcastTemplateElement, JSObject.get.
  change (modelName (upcastModel el viewElement)) with (name el).
  now rewrite (init_value_lookup _ _ Hin), Hty.
Qed.

(** X15.  When the generated names are pairwise distinct,
    [getElementsByType] returns the descriptors of the type in the order in
    which they were registered. *)
Theorem getElementsByType_in_registration_order
        (templates : list (string * TemplateConfig)) (ty : string) :
  NoDup (map name (registrations templates)) ->
  getElementsByType (init templates constructor) ty
  = filter (fun el => String.eqb (type el) ty) (registrations templates).
Proof.
  intros Hnd. unfold getElementsByType.
  now rewrite init_elements, values_fold by exact Hnd.
Qed.

End RegistryInvariants.

(** ** Parents are registered first *)

Lemma parentsBefore_incl (seen seen' els : list ElementInfo) :
  incl seen seen' -> parentsBefore seen els -> parentsBefore seen' els.
Proof.
  intros Hincl H n el p Hn Hp.
  destruct (H n el p Hn Hp) as [Hin | Hearlier]; [left; now apply Hincl | now right].
Qed.

Lemma parentsBefore_app (seen l1 l2 : list ElementInfo) :
  parentsBefore seen l1 ->
  parentsBefore (l1 ++ seen) l2 ->
  parentsBefore seen (l1 ++ l2).
Proof.
  intros H1 H2 n el p Hn Hp.
  destruct (Nat.lt_ge_cases n (List.length l1)) as [Hlt | Hge].
  - rewrite nth_error_app1 in Hn by exact Hlt.
    destruct (H1 n el p Hn Hp) as [Hin | (m & Hm & Hnm)]; [now left |].
    right. exists m. split; [exact Hm |].
    rewrite nth_error_app1 by lia. exact Hnm.
  - rewrite nth_error_app2 in Hn by exact Hge.
    destruct (H2 _ el p Hn Hp) as [Hin | (m & Hm & Hnm)].
    + apply in_app_or in Hin as [Hin | Hin]; [| now left].
      right. apply In_nth_error in Hin as (m & Hnm). exists m.
      assert (Hm : m < List.length l1) by (apply nth_error_Some; congruence).
      split; [lia |]. rewrite nth_error_app1 by exact Hm. exact Hnm.
    + right. exists (List.length l1 + m). split; [lia |].
      rewrite nth_error_app2 by lia.
      replace (List.length l1 + m - List.length l1) with m by lia. exact Hnm.
Qed.

Section ParentsFirst.

Context {collaborators : Collaborators}.

Lemma constructions_parentsBefore (dom : Dom.Node) :
  forall index parent seen,
    match parent with Some p => In p seen | None => True end ->
    parentsBefore seen (map snd (constructions dom index parent)).
Proof.
  induction dom as [ty tag attrs cs IH] using Node_induction.
  intros index above seen Hparent. simpl.
  set (element := newElementInfo (Dom.mkNode ty tag attrs cs) index above).
  assert (Helement : parent element = above) by reflexivity.
  apply (parentsBefore_app seen [ element ]).
  - intros [| n] el p Hn Hp; simpl in Hn.
    + injection Hn as <-. left. rewrite Helement in Hp. now rewrite Hp in Hparent.
    + destruct n; discriminate.
  - assert (Hin : In element ([ element ] ++ seen)) by now left.
    revert Hin. generalize ([ element ] ++ seen)%list as seen'.
    clearbody element. clear Helement. generalize 0 as i.
    induction IH as [| c cs Hc _ IHcs]; intros i seen' Hin.
    + intros n el p Hn. destruct n; discriminate.
    + rewrite map_app. apply parentsBefore_app.
      * destruct (Dom.isElement c).
        -- now apply Hc.
        -- intros n el p Hn. destruct n; discriminate.
      * apply IHcs. apply in_or_app. now right.
Qed.

Lemma registrations_parentsBefore (templates : list (string * TemplateConfig)) :
  parentsBefore [] (registrations templates).
Proof.
  unfold registrations.
  induction templates as [| entry templates IH]; simpl.
  - intros n el p Hn. destruct n; discriminate.
  - apply parentsBefore_app.
    + now apply constructions_parentsBefore.
    + eapply parentsBefore_incl; [| exact IH]. intros x [].
Qed.

(** X12.  In the sequence of schema registrations made by [init], an item
    that is not allowed in [$root] is registered after the item it is
    allowed in: every nested element follows its parent. *)
Theorem nested_item_registered_after_its_parent
        (templates : list (string * TemplateConfig)) (n : nat)
        (item : string) (definition : SchemaDefinition) :
  nth_error (schema (init templates constructor)) n = Some (Register item definition) ->
  allowIn definition = "$root"
  \/ exists m definition',
       m < n
       /\ nth_error (schema (init templates constructor)) m
          = Some (Register (allowIn definition) definition').
Proof.
  rewrite init_schema. simpl.
  set (call := fun el : ElementInfo =>
                 Register (name el)
                   {| isObject := true;
                      isBlock := true;
                      allowIn := match parent el with Some p => name p | None => "$root" end;
                      allowAttributes := JSObject.keys (attributes el) |}).
  intros Hn.
  destruct (Nat.lt_ge_cases n (List.length (map call (registrations templates))))
    as [Hlt | Hge].
  - rewrite nth_error_app1 in Hn by exact Hlt. rewrite nth_error_map in Hn.
    destruct (nth_error (registrations templates) n) as [el |] eqn:E; [| discriminate].
    simpl in Hn. injection Hn as <- <-. simpl.
    destruct (parent el) as [p |] eqn:Hp; [right | now left].
    destruct (registrations_parentsBefore templates n el p E Hp)
      as [[] | (m & Hm & Hnm)].
    exists m. eexists. split; [exact Hm |].
    rewrite nth_error_app1 by lia. rewrite nth_error_map, Hnm. reflexivity.
  - rewrite nth_error_app2 in Hn by exact Hge.
    destruct (n - List.length (map call (registrations templates))) as [| [| k]];
      discriminate.
Qed.

End ParentsFirst.

(** X12 at the [complex] template: the child is the second registration and
    its parent the first. *)
Lemma nested_item_registered_after_its_parent_complex :
  "tpl__complex" = "$root"
  \/ exists m definition',
       m < 1
       /\ nth_error
            (schema (Example.plugin [ Example.config "complex" Example.complexMarkup ])) m
          = Some (Register "tpl__complex" definition').
Proof.
  exact (@nested_item_registered_after_its_parent Example.collaborators
           [ Example.config "complex" Example.complexMarkup ] 1
           "tpl__complex__child0"
           {| isObject := true; isBlock := true; allowIn := "tpl__complex";
              allowAttributes := [ "class" ] |} eq_refl).
Defined.

(** X8 at the [complex] template. *)
Lemma registry_keys_are_descriptor_names_complex :
  let child := {| name := "tpl__complex__child0"; tagName := "div"; type := "element";
                  attributes := [ ("class", "child") ];
                  parent := Some {| name := "tpl__complex"; tagName := "div";
                                    type := "element";
                                    attributes := [ ("class", "parent");
                                                    ("ck-name", "complex") ];
                                    parent := None |} |} in
  name child = "tpl__complex__child0"
  /\ In child (@registrations Example.collaborators
                 [ Example.config "complex" Example.complexMarkup ]).
Proof.
  intros child.
  exact (proj2 (@registry_keys_are_descriptor_names Example.collaborators
                  [ Example.config "complex" Example.complexMarkup ])
               "tpl__complex__child0" child eq_refl).
Defined.

(** X9 and X15 at the [simple] and [complex] templates together. *)
Lemma registered_descriptor_is_looked_up_complex :
  let templates := [ Example.config "simple" Example.simpleMarkup;
                     Example.config "complex" Example.complexMarkup ] in
  let root := {| name := "tpl__complex"; tagName := "div"; type := "element";
                 attributes := [ ("class", "parent"); ("ck-name", "complex") ];
                 parent := None |} in
  @getElementInfo (Example.plugin templates) "tpl__complex" = JSObject.Own root.
Proof.
  intros templates root.
  apply (@registered_descriptor_is_looked_up Example.collaborators templates root).
  - simpl. repeat constructor; simpl; intuition discriminate.
  - simpl. tauto.
Defined.

Lemma getElementsByType_in_registration_order_complex :
  let templates := [ Example.config "simple" Example.simpleMarkup;
                     Example.config "complex" Example.complexMarkup ] in
  map name (@getElementsByType (Example.plugin templates) "element")
  = [ "tpl__simple"; "tpl__complex"; "tpl__complex__child0" ].
Proof.
  intros templates. unfold Example.plugin.
  rewrite (@getElementsByType_in_registration_order Example.collaborators templates).
  - reflexivity.
  - simpl. repeat constructor; simpl; intuition discriminate.
Defined.

(** X14 at the [simple] template. *)
Lemma upcast_result_is_downcast_simple :
  exists el,
    @_findMatchingTemplateElement Example.collaborators
      (Example.plugin [ Example.config "simple" Example.simpleMarkup ])
      (createContainerElement "div" [ ("class", "simple") ])
      (_elementTypes (Example.plugin [ Example.config "simple" Example.simpleMarkup ]))
    = Some el
    /\ "tpl__simple" = name el
    /\ dataDowncast (Example.plugin [ Example.config "simple" Example.simpleMarkup ])
                    (createElement "tpl__simple" [ ("class", "simple") ])
       = Some (createContainerElement (tagName el)
                 (getModelAttributes el (createElement "tpl__simple"
                                                       [ ("class", "simple") ]))).
Proof.
  exact (@upcast_result_is_downcast Example.collaborators
           [ Example.config "simple" Example.simpleMarkup ]
           (createContainerElement "div" [ ("class", "simple") ])
           (createElement "tpl__simple" [ ("class", "simple") ]) eq_refl).
Defined.

(** ** Registration with the host's check *)






Section HostCheck.

Context {collaborators : Collaborators}.





End HostCheck.


(** ** Round trips through the data view *)

Section RoundTripThroughInit.

Context {collaborators : Collaborators}.


End RoundTripThroughInit.

